(** * decision_maker.py: the decision node of the self-driving-car simulator

    A shallow embedding of [src/drivex_decision/scripts/decision_maker.py]:
    the four subscriber callbacks, [gracefulStop], and the body of the
    [while not rospy.is_shutdown()] loop of [main], followed by the
    properties of the control loop proved on that embedding.

    Python values are dynamically typed, so a slot of the [config] dict
    holds a [pyval]; the dict itself is a [gmap string pyval].  Exceptions are
    explicit ([result]), and what the process does to the outside world
    (windows, console, the [/cmd_vel] topic, the yaml file) is a list of
    [event]s.  Floats are binary64, as in CPython. *)

From Stdlib Require Import PrimFloat ZArith.
From stdpp Require Import gmap strings list fin_maps.

#[local] Set Warnings "-register-all,-inexact-float".

(** ** Values *)

(** What [json.loads] returns: [None], [bool], [int], [float], [str],
    [list] and [dict] (with string keys). *)
Inductive json : Type :=
| JNull
| JBool (b : bool)
| JInt (z : Z)
| JFloat (f : float)
| JStr (s : string)
| JList (l : list json)
| JDict (d : list (string * json)).

(** The values that are stored in [config] and in the fields of a [Twist]. *)
Inductive pyval (ndarray : Type) : Type :=
| PyNone
| PyBool (b : bool)
| PyInt (z : Z)
| PyFloat (f : float)
| PyStr (s : string)
| PyArray (a : ndarray)
| PyBridge.

Arguments PyNone {ndarray}.
Arguments PyBool {ndarray} b.
Arguments PyInt {ndarray} z.
Arguments PyFloat {ndarray} f.
Arguments PyStr {ndarray} s.
Arguments PyArray {ndarray} a.
Arguments PyBridge {ndarray}.

(** The exceptions the script can raise.  [exit(0)] raises [SystemExit]. *)
Inductive exn : Type :=
| KeyError (k : string)
| TypeError
| ValueError
| OverflowError
| AttributeError
| JSONDecodeError
| CvBridgeError
| EOFError
| OSError
| SystemExit (code : Z).

Inductive result (A : Type) : Type :=
| Ok (a : A)
| Raise (e : exn).

Arguments Ok {A} a.
Arguments Raise {A} e.

(** The exit status of the interpreter when [e] reaches the top level. *)
Definition exit_status (e : exn) : Z :=
  match e with
  | SystemExit c => c
  | _ => 1%Z
  end.

(** ** The libraries the script calls

    numpy, OpenCV, cv_bridge, json and the float conversions of the
    interpreter are not part of the script.  Every property below holds for
    any behaviour of them. *)
Class Platform : Type := {
  (** [numpy.ndarray], here always a bgr8 camera frame *)
  ndarray : Type;
  (** [sensor_msgs.msg.Image] *)
  Image : Type;
  (** [CvBridge.imgmsg_to_cv2(message, "bgr8")]; [None] is [CvBridgeError] *)
  imgmsg_to_cv2 : Image → option ndarray;
  (** [cv2.putText] with the defaults of [cv2PutText] (lines 31-37) *)
  putText : ndarray → string → ndarray;
  (** [round(a * 100, 2)] on an array *)
  np_percentage : ndarray → ndarray;
  (** [json.loads]; [None] is [JSONDecodeError] *)
  json_loads : string → option json;
  (** [float(n)] on an [int]; [None] is [OverflowError] *)
  float_of_int : Z → option float;
  (** [float(s)] on a [str]; [None] is [ValueError] *)
  float_of_str : string → option float;
  (** [round(x, 2)] on a [float] *)
  round2 : float → float;
  (** the text an f-string inserts for a value *)
  py_format : pyval ndarray → string
}.

(** ** Messages and outputs *)

Record Vector3 `{Platform} : Type := mkVector3 {
  x : pyval ndarray;
  y : pyval ndarray;
  z : pyval ndarray
}.

Arguments mkVector3 {_} x y z.

(** [geometry_msgs.msg.Twist] *)
Record Twist `{Platform} : Type := mkTwist {
  linear : Vector3;
  angular : Vector3
}.

Arguments mkTwist {_} linear angular.

(** [info_loaded], the parsed yaml of the model: the [dataset] entry the
    script reads and the [model] sub-record, whose feedback entries are
    text.  These are the model files with a [model] mapping of text entries,
    as the script itself writes them; a file without that mapping, or with a
    feedback entry that is no text, on which lines 182-186 raise, is none of
    them. *)
Record info `{Platform} : Type := mkInfo {
  dataset_linear_velocity : pyval ndarray;
  model : gmap string string
}.

Arguments mkInfo {_} dataset_linear_velocity model.

Inductive event `{Platform} : Type :=
| EvImshow (winname : string) (img : ndarray)    (* cv2.imshow *)
| EvWaitKey (delay : Z)                          (* cv2.waitKey *)
| EvPublish (t : Twist)                          (* twist_pub.publish *)
| EvPrint (s : string)                           (* print *)
| EvInput (prompt : string)                      (* input *)
| EvYamlDump (i : info)                          (* yaml.dump to the model file *)
| EvSleep (seconds : float)                      (* time.sleep *)
| EvRateSleep.                                   (* rate.sleep *)

(** ** Computations with state, outputs and exceptions *)

Record outcome `{Platform} (S A : Type) : Type := Outcome {
  state : S;
  events : list event;
  res : result A
}.

Arguments Outcome {_ S A} state events res.
Arguments state {_ S A} o.
Arguments events {_ S A} o.
Arguments res {_ S A} o.

Definition M `{Platform} (S A : Type) : Type := S → outcome S A.

Definition ret `{Platform} {S A} (a : A) : M S A :=
  λ s, Outcome s [] (Ok a).

Definition bind `{Platform} {S A B} (m : M S A) (k : A → M S B) : M S B :=
  λ s,
    match m s with
    | Outcome s' evs (Ok a) =>
        match k a s' with
        | Outcome s'' evs' r => Outcome s'' (evs ++ evs') r
        end
    | Outcome s' evs (Raise e) => Outcome s' evs (Raise e)
    end.

Definition raise `{Platform} {S A} (e : exn) : M S A :=
  λ s, Outcome s [] (Raise e).

Definition lift `{Platform} {S A} (r : result A) : M S A :=
  λ s, Outcome s [] r.

Definition emit `{Platform} {S} (e : event) : M S unit :=
  λ s, Outcome s [e] (Ok tt).

Declare Scope py_scope.
Delimit Scope py_scope with py.
Notation "'do' x <- m ; k" := (bind m (λ x, k))
  (at level 10, x name, m at level 100, k at level 200) : py_scope.
Notation "m ;; k" := (bind m (λ _, k))
  (at level 100, k at level 200, right associativity) : py_scope.
Open Scope py_scope.

(** ** Python operations used by the script *)

Section Script.
Context `{Platform}.

Abbreviation value := (pyval ndarray).
Abbreviation dict := (gmap string value).

(** [d[k]] on a dict *)
Definition dict_get {S} (k : string) (d : dict) : M S value :=
  match d !! k with
  | Some v => ret v
  | None => raise (KeyError k)
  end.

(** [config[k]] and [config[k] = v] in a computation whose state is the
    dict *)
Definition getitem (k : string) : M dict value :=
  λ c, dict_get k c c.

Definition setitem (k : string) (v : value) : M dict unit :=
  λ c, Outcome (<[k:=v]> c) [] (Ok tt).

Fixpoint assoc (k : string) (d : list (string * json)) : option json :=
  match d with
  | [] => None
  | (k', v) :: d' => if decide (k = k') then Some v else assoc k d'
  end.

(** [data[k]] with a string key on a decoded JSON value: only a dict can
    be subscripted with a string *)
Definition json_getitem (data : json) (k : string) : result json :=
  match data with
  | JDict d =>
      match assoc k d with
      | Some v => Ok v
      | None => Raise (KeyError k)
      end
  | _ => Raise TypeError
  end.

(** [float(v)] on a decoded JSON value *)
Definition json_float (v : json) : result float :=
  match v with
  | JFloat f => Ok f
  | JInt n =>
      match float_of_int n with
      | Some f => Ok f
      | None => Raise OverflowError
      end
  | JBool b => Ok (if b then 1%float else 0%float)
  | JStr s =>
      match float_of_str s with
      | Some f => Ok f
      | None => Raise ValueError
      end
  | JNull | JList _ | JDict _ => Raise TypeError
  end.

(** [x is False] *)
Definition is_False (v : value) : bool :=
  match v with
  | PyBool false => true
  | _ => false
  end.

(** [round(v * 100, 2)] (line 145).  A [bool] is an [int]; [round] of an
    [int] to two places is the [int]; [str * 100] is a [str], which has
    no [__round__]. *)
Definition percentage (v : value) : result value :=
  match v with
  | PyInt n => Ok (PyInt (n * 100))
  | PyBool b => Ok (PyInt (if b then 100 else 0))
  | PyFloat f => Ok (PyFloat (round2 (f * 100)%float))
  | PyArray a => Ok (PyArray (np_percentage a))
  | PyNone | PyStr _ | PyBridge => Raise TypeError
  end.

(** ** The callbacks (lines 44-61) *)

(** [message.data] is the [str] of a [std_msgs/String]. *)
Definition modelSteeringVelocityCallback (message : string) : M dict unit :=
  do data <- lift (match json_loads message with
                   | Some j => Ok j
                   | None => Raise JSONDecodeError
                   end);
  do s <- lift (json_getitem data "steering");
  do sf <- lift (json_float s);
  setitem "steering" (PyFloat sf);;
  do v <- lift (json_getitem data "velocity");
  do vf <- lift (json_float v);
  setitem "velocity" (PyFloat vf).

(** [message.data] is the [float] of a [std_msgs/Float32]. *)
Definition crosswalkSurenessCallback (message : float) : M dict unit :=
  setitem "crosswalk" (PyFloat message).

Definition signalCallback (message : string) : M dict unit :=
  setitem "signal" (PyStr message).

Definition imgRgbCallback (message : Image) : M dict unit :=
  do bridge <- getitem "bridge";
  do img <- lift (match bridge with
                  | PyBridge =>
                      match imgmsg_to_cv2 message with
                      | Some a => Ok a
                      | None => Raise CvBridgeError
                      end
                  | _ => Raise AttributeError
                  end);
  setitem "img_rgb" (PyArray img);;
  setitem "begin_img" (PyBool true).

(** ** The state of [main] *)

(** The objects [main] creates once and mutates afterwards. *)
Record world : Type := World {
  config : dict;
  twist : Twist;
  info_loaded : info
}.

Definition set_config (c : dict) (w : world) : world :=
  World c (twist w) (info_loaded w).
Definition set_twist (t : Twist) (w : world) : world :=
  World (config w) t (info_loaded w).
Definition set_info (i : info) (w : world) : world :=
  World (config w) (twist w) i.

(** [config[k]] read from [main] *)
Definition config_get (k : string) : M world value :=
  λ w, dict_get k (config w) w.

Definition config_set (k : string) (v : value) : M world unit :=
  λ w, Outcome (set_config (<[k:=v]> (config w)) w) [] (Ok tt).

Definition get_twist : M world Twist :=
  λ w, Outcome w [] (Ok (twist w)).

Definition modify_twist (f : Twist → Twist) : M world unit :=
  λ w, Outcome (set_twist (f (twist w)) w) [] (Ok tt).

Definition get_info : M world info :=
  λ w, Outcome w [] (Ok (info_loaded w)).

Definition put_info (i : info) : M world unit :=
  λ w, Outcome (set_info i w) [] (Ok tt).

Definition set_linear_x (v : value) (t : Twist) : Twist :=
  mkTwist (mkVector3 v (y (linear t)) (z (linear t))) (angular t).
Definition set_linear_y (v : value) (t : Twist) : Twist :=
  mkTwist (mkVector3 (x (linear t)) v (z (linear t))) (angular t).
Definition set_linear_z (v : value) (t : Twist) : Twist :=
  mkTwist (mkVector3 (x (linear t)) (y (linear t)) v) (angular t).
Definition set_angular_x (v : value) (t : Twist) : Twist :=
  mkTwist (linear t) (mkVector3 v (y (angular t)) (z (angular t))).
Definition set_angular_y (v : value) (t : Twist) : Twist :=
  mkTwist (linear t) (mkVector3 (x (angular t)) v (z (angular t))).
Definition set_angular_z (v : value) (t : Twist) : Twist :=
  mkTwist (linear t) (mkVector3 (x (angular t)) (y (angular t)) v).

(** ** [cv2PutText] (lines 22-41)

    [img.shape] exists on an array only.  The text is drawn into [img]
    itself; the drawn array is the result. *)
Definition cv2PutText (img : value) (text : string) : result ndarray :=
  match img with
  | PyArray a => Ok (putText a text)
  | _ => Raise AttributeError
  end.

(** ** [gracefulStop] (lines 64-73) *)
Definition gracefulStop : M world unit :=
  modify_twist (set_linear_x (PyInt 0));;
  modify_twist (set_angular_z (PyInt 0));;
  do t <- get_twist;
  emit (EvPublish t).

(** ** [main] *)

(** The dict of lines 77-93. *)
Definition main_config : dict :=
  <["bridge":=PyBridge]>
    (<["steering":=PyInt 0]>
       (<["crosswalk":=PyInt 0]>
          (<["velocity":=PyInt 0]>
             (<["begin_img":=PyBool false]>
                (list_to_map
                   [("vel", PyNone); ("signal", PyNone); ("img_rgb", PyNone);
                    ("steering", PyNone); ("bridge", PyNone);
                    ("begin_img", PyNone); ("twist_linear_x", PyNone);
                    ("crosswalk", PyNone)]))))).

(** [Twist()] (line 94): every component is [0.0]. *)
Definition main_twist : Twist :=
  mkTwist (mkVector3 (PyFloat 0) (PyFloat 0) (PyFloat 0))
          (mkVector3 (PyFloat 0) (PyFloat 0) (PyFloat 0)).

Definition crosswalk_timeout : float := 0.18%float.
Definition crosswalk_threshold : float := 0.85%float.

Definition win_name : string := "Robot View".

(** [linear_velocity] (line 123) *)
Definition linear_velocity (w : world) : value :=
  dataset_linear_velocity (info_loaded w).

(** What the operator does during one iteration: the key [cv2.waitKey]
    returns, and the two lines typed at the prompts of [input]. *)
Record operator : Type := Operator {
  key : Z;
  comments : string;
  rating : string
}.

(** [ord("q")] *)
Definition ord_q : Z := 113.

(** What the console and the file system do when the operator quits: the
    line [input] returns at each of the two prompts ([None]: the input has
    ended, [EOFError]), and whether the model file can be opened for
    writing ([false]: [OSError]; [yaml.dump] of a record [yaml.load]
    returned does not fail). *)
Record shutdown_io : Type := ShutdownIO {
  comments_line : option string;
  rating_line : option string;
  file_ok : bool
}.

(** An operator who types both lines, and a file that can be written. *)
Definition answers (op : operator) : shutdown_io :=
  ShutdownIO (Some (comments op)) (Some (rating op)) true.

(** [input(prompt)] *)
Definition input_line {S} (prompt : string) (line : option string)
    : M S string :=
  emit (EvInput prompt);;
  match line with
  | Some text => ret text
  | None => raise EOFError
  end.

(** Lines 182-187 and, with the other key, lines 196-201. *)
Definition record_feedback (k text : string) (m : gmap string string)
    : gmap string string :=
  match m !! k with
  | None => <[k:=text]> m
  | Some old => <[k:=old +:+ "; " +:+ text]> m
  end.

Definition record_in_model (k text : string) : M world unit :=
  do i <- get_info;
  put_info (mkInfo (dataset_linear_velocity i) (record_feedback k text (model i))).

(** One iteration of the [while] loop (lines 142-214), with the key
    [cv2.waitKey] returns.  The rules of lines 152-165 are comments in the
    script, so they are no code here. *)
Definition main_iteration (key : Z) (io : shutdown_io) : M world unit :=
  do begin_img <- config_get "begin_img";
  if is_False begin_img then ret tt
  else
    do crosswalk <- config_get "crosswalk";
    do crosswalk_sureness_percentage <- lift (percentage crosswalk);
    do img <- config_get "img_rgb";
    do drawn <- lift (cv2PutText img
                        ("Crosswalk detection: "
                         +:+ py_format crosswalk_sureness_percentage +:+ "%"));
    config_set "img_rgb" (PyArray drawn);;
    do shown <- config_get "img_rgb";
    match shown with
    | PyArray a => emit (EvImshow win_name a)
    | _ => raise TypeError
    end;;
    emit (EvWaitKey 1);;
    do velocity <- config_get "velocity";
    modify_twist (set_linear_x velocity);;
    modify_twist (set_linear_y (PyInt 0));;
    modify_twist (set_linear_z (PyInt 0));;
    modify_twist (set_angular_x (PyInt 0));;
    modify_twist (set_angular_y (PyInt 0));;
    do steering <- config_get "steering";
    modify_twist (set_angular_z steering);;
    if decide (key = ord_q) then
      gracefulStop;;
      emit (EvPrint "Stopping the autonomous driving");;
      do comments <- input_line
                       "[info.yaml] Additional comments about the model: "
                       (comments_line io);
      record_in_model "driving_comments" comments;;
      do model_eval <- input_line
                         "[info.yaml] Evaluate the model on a scale from 0 (bad) to 10 (good): "
                         (rating_line io);
      record_in_model "driving_model_eval" (model_eval +:+ "/10");;
      do i <- get_info;
      (if file_ok io then emit (EvYamlDump i) else raise OSError);;
      raise (SystemExit 0)
    else
      do t <- get_twist;
      emit (EvPublish t);;
      emit EvRateSleep.

(** The iteration of an operator who, should he quit, types both lines,
    with a model file that can be written. *)
Definition main_loop_body (op : operator) : M world unit :=
  main_iteration (key op) (answers op).

(** ** The process: the loop and the callbacks the transport runs *)

Inductive message : Type :=
| MsgSignal (data : string)
| MsgCrosswalk (data : float)
| MsgModel (data : string)
| MsgFrame (img : Image).

(** The subscriptions of lines 132-135. *)
Definition callback (m : message) : M dict unit :=
  match m with
  | MsgSignal data => signalCallback data
  | MsgCrosswalk data => crosswalkSurenessCallback data
  | MsgModel data => modelSteeringVelocityCallback data
  | MsgFrame img => imgRgbCallback img
  end.

(** What happens to the process, one after the other: a message is
    delivered, or the loop iterates, [Iterate op] with an operator who
    answers the prompts and a file that can be written, [IterateIO key io]
    with any console and file system. *)
Inductive input : Type :=
| Deliver (m : message)
| Iterate (op : operator)
| IterateIO (key : Z) (io : shutdown_io).

Record process : Type := Process {
  mem : world;
  output : list event;
  exited : option Z
}.

(** A callback runs on the thread of the transport, here between two
    iterations: it changes [config], and what it raises goes to the
    transport that called it, not to the loop. *)
Definition deliver (m : message) (w : world) : outcome world unit :=
  let o := callback m (config w) in
  Outcome (set_config (state o) w) (events o) (res o).

(** An iteration that raises ends the process, with the status of
    [exit_status]: 0 for [exit(0)], 1 for an exception that reaches the top
    level.  A process that has ended ignores what comes after.  The inputs
    are those of a node that is up: at each of them the loop condition of
    line 141 holds and [rate.sleep] returns; the shutdown of the node from
    outside is none of them. *)
Definition step (p : process) (i : input) : process :=
  match exited p with
  | Some _ => p
  | None =>
      match i with
      | Deliver m =>
          let o := deliver m (mem p) in
          Process (state o) (output p ++ events o) None
      | Iterate op =>
          let o := main_loop_body op (mem p) in
          Process (state o) (output p ++ events o)
                  (match res o with
                   | Ok _ => None
                   | Raise e => Some (exit_status e)
                   end)
      | IterateIO key io =>
          let o := main_iteration key io (mem p) in
          Process (state o) (output p ++ events o)
                  (match res o with
                   | Ok _ => None
                   | Raise e => Some (exit_status e)
                   end)
      end
  end.

Definition run (ins : list input) (p : process) : process :=
  fold_left step ins p.

(** [main] up to the loop, then the loop under a schedule of deliveries
    and iterations. *)
Definition main_start (i : info) : process :=
  Process (World main_config main_twist i) [] None.

Definition main (i : info) (ins : list input) : process :=
  run ins (main_start i).

(** The commands published and the seconds slept in a list of events. *)
Definition published (evs : list event) : list Twist :=
  omap (λ e, match e with EvPublish t => Some t | _ => None end) evs.

Definition slept (evs : list event) : list float :=
  omap (λ e, match e with EvSleep d => Some d | _ => None end) evs.

Definition displayed (evs : list event) : list ndarray :=
  omap (λ e, match e with EvImshow _ a => Some a | _ => None end) evs.

(** ** Vocabulary of the properties *)

(** An [int] or a [float]. *)
Definition numeric (v : value) : Prop :=
  match v with
  | PyInt _ | PyFloat _ => True
  | _ => False
  end.

(** What the slots the loop reads hold in every state the process
    reaches: the types [main] and the callbacks store there, and a frame
    once [begin_img] is set. *)
Record well_formed (c : dict) : Prop := WellFormed {
  wf_begin_img : ∃ b, c !! "begin_img" = Some (PyBool b);
  wf_img_rgb :
    c !! "begin_img" = Some (PyBool true) →
    ∃ a, c !! "img_rgb" = Some (PyArray a);
  wf_crosswalk : ∃ v, c !! "crosswalk" = Some v ∧ numeric v;
  wf_velocity : ∃ v, c !! "velocity" = Some v ∧ numeric v;
  wf_steering : ∃ v, c !! "steering" = Some v ∧ numeric v;
  wf_bridge : c !! "bridge" = Some PyBridge
}.

(** The text of line 147. *)
Definition overlay (pct : value) : string :=
  "Crosswalk detection: " +:+ py_format pct +:+ "%".

(** The command of lines 168-173. *)
Definition command (velocity steering : value) : Twist :=
  mkTwist (mkVector3 velocity (PyInt 0) (PyInt 0))
          (mkVector3 (PyInt 0) (PyInt 0) steering).

(** The command [gracefulStop] publishes from there. *)
Definition stop_command : Twist := command (PyInt 0) (PyInt 0).

(** Both feedback entries recorded (lines 181-201). *)
Definition with_feedback (op : operator) (i : info) : info :=
  mkInfo (dataset_linear_velocity i)
         (record_feedback "driving_model_eval" (rating op +:+ "/10")
            (record_feedback "driving_comments" (comments op) (model i))).

(** The quit branch after the first prompt (lines 181-209), for every
    console and file system: the record it leaves in [info_loaded], its
    events, and what it raises. *)
Definition shutdown_info (io : shutdown_io) (i : info) : info :=
  match comments_line io with
  | None => i
  | Some c =>
      let i1 :=
        mkInfo (dataset_linear_velocity i)
               (record_feedback "driving_comments" c (model i)) in
      match rating_line io with
      | None => i1
      | Some r =>
          mkInfo (dataset_linear_velocity i1)
                 (record_feedback "driving_model_eval" (r +:+ "/10") (model i1))
      end
  end.

Definition shutdown_events (io : shutdown_io) (i : info) : list event :=
  match comments_line io, rating_line io with
  | None, _ => []
  | Some _, None =>
      [EvInput
         "[info.yaml] Evaluate the model on a scale from 0 (bad) to 10 (good): "]
  | Some _, Some _ =>
      EvInput
        "[info.yaml] Evaluate the model on a scale from 0 (bad) to 10 (good): "
      :: (if file_ok io then [EvYamlDump (shutdown_info io i)] else [])
  end.

Definition shutdown_exn (io : shutdown_io) : exn :=
  match comments_line io, rating_line io with
  | Some _, Some _ => if file_ok io then SystemExit 0 else OSError
  | _, _ => EOFError
  end.

(** The slots of [config] a callback assigns. *)
Definition owned (m : message) : gset string :=
  match m with
  | MsgSignal _ => {["signal"]}
  | MsgCrosswalk _ => {["crosswalk"]}
  | MsgModel _ => {["steering"; "velocity"]}
  | MsgFrame _ => {["img_rgb"; "begin_img"]}
  end.

(** No frame is decoded by this input. *)
Definition no_frame (i : input) : Prop :=
  match i with
  | Deliver (MsgFrame img) => imgmsg_to_cv2 img = None
  | _ => True
  end.

(** The steering and the velocity a payload decodes to (lines 45-47). *)
Definition payload_field (payload k : string) : result float :=
  match json_loads payload with
  | None => Raise JSONDecodeError
  | Some data =>
      match json_getitem data k with
      | Ok v => json_float v
      | Raise e => Raise e
      end
  end.

Definition fails {A} (r : result A) : Prop :=
  match r with
  | Ok _ => False
  | Raise _ => True
  end.

(** A payload is malformed when one of its two numbers cannot be
    decoded. *)
Definition malformed (payload : string) : Prop :=
  fails (payload_field payload "steering")
  ∨ fails (payload_field payload "velocity").

(** The append rule as the specification words it: the new text as it
    is when the entry is absent, the old text, a separator and the new
    text when it is present. *)
Definition appended (k text : string) (m m' : gmap string string) : Prop :=
  match m !! k with
  | None => m' !! k = Some text
  | Some old => m' !! k = Some (old +:+ "; " +:+ text)
  end.

(** A velocity of zero, as an [int], a [bool] or a [float]. *)
Definition is_zero (v : value) : bool :=
  match v with
  | PyInt n => bool_decide (n = 0%Z)
  | PyBool b => negb b
  | PyFloat f => PrimFloat.eqb f 0
  | _ => false
  end.

(** The records written to the model file in a list of events. *)
Definition dumped (evs : list event) : list info :=
  omap (λ e, match e with EvYamlDump i => Some i | _ => None end) evs.

(** A command of lines 168-173 whose velocity and steering are numbers. *)
Definition planar (t : Twist) : Prop :=
  ∃ v s, t = command v s ∧ numeric v ∧ numeric s.

(** Kinds of inputs of a schedule. *)
Definition is_iterate (i : input) : bool :=
  match i with
  | Iterate _ | IterateIO _ _ => true
  | Deliver _ => false
  end.

Definition is_signal (i : input) : bool :=
  match i with
  | Deliver (MsgSignal _) => true
  | _ => false
  end.

Definition is_perception (i : input) : bool :=
  match i with
  | Deliver (MsgSignal _) | Deliver (MsgCrosswalk _) => true
  | _ => false
  end.

(** The operator does not press q in this input. *)
Definition no_quit (i : input) : Prop :=
  match i with
  | Iterate op => key op ≠ ord_q
  | IterateIO key _ => key ≠ ord_q
  | Deliver _ => True
  end.

(** This input is no message of the model topic. *)
Definition no_model (i : input) : Prop :=
  match i with
  | Deliver (MsgModel _) => False
  | _ => True
  end.

(** A schedule without the inputs of one kind. *)
Definition without (kind : input → bool) (ins : list input) : list input :=
  List.filter (λ i, negb (kind i)) ins.
End Script.

(** ** A platform to run the script on

    Stand-ins for the libraries, to evaluate the script on concrete
    schedules: a frame is the number the camera gave it and the texts drawn
    on it, in order; [loads] is [json.loads] on the three payloads below.
    No payload below writes a number as an [int] or a [str], so the two
    conversions are never called, and the text of the overlay is not
    looked at. *)
Module Sim.

Definition frame : Type := (nat * list string)%type.

Definition dq : string := String (Ascii.ascii_of_nat 34) EmptyString.

Definition quoted (s : string) : string := dq +:+ s +:+ dq.

(** The payload [{"steering": 0.125, "velocity": 0.5}]. *)
Definition payload_both : string :=
  "{" +:+ quoted "steering" +:+ ": 0.125, " +:+ quoted "velocity" +:+ ": 0.5}".

(** The payload [{"steering": 0.125}]: the velocity is missing. *)
Definition payload_steering_only : string :=
  "{" +:+ quoted "steering" +:+ ": 0.125}".

(** A payload that is no JSON text. *)
Definition payload_garbage : string := "steering=0.125".

Definition loads (s : string) : option json :=
  if decide (s = payload_both) then
    Some (JDict [("steering", JFloat 0.125); ("velocity", JFloat 0.5)])
  else if decide (s = payload_steering_only) then
    Some (JDict [("steering", JFloat 0.125)])
  else None.

Definition platform : Platform := {|
  ndarray := frame;
  Image := option nat;
  imgmsg_to_cv2 := fmap (λ n, (n, []));
  putText := λ a text, (a.1, a.2 ++ [text]);
  np_percentage := id;
  json_loads := loads;
  float_of_int := λ _, None;
  float_of_str := λ _, None;
  round2 := id;
  py_format := λ _, "?"
|}.

#[local] Existing Instance platform.

(** The model file: a cruise velocity of 0.8 and one earlier comment. *)
Definition model_file : info :=
  mkInfo (PyFloat 0.8) {["driving_comments" := "A"]}.

(** No key pressed: [cv2.waitKey] returns -1. *)
Definition no_key : operator := Operator (-1) EmptyString EmptyString.

(** The operator presses q, then types a comment and a rating. *)
Definition quit : operator := Operator 113 "B" "7".

(** The operator of a later session. *)
Definition quit_again : operator := Operator 113 "C" "9".

(** The console of a node started with no terminal: the standard input is
    at its end, so that [input] raises [EOFError] at the first prompt. *)
Definition no_console : shutdown_io := ShutdownIO None None true.

(** The operator answers both prompts, but the model file cannot be opened
    for writing. *)
Definition read_only : shutdown_io := ShutdownIO (Some "B") (Some "7") false.

(** The first frame of the camera. *)
Definition first_frame : Image := Some 1%nat.

(** The confidence 0.9 as a [Float32] carries it. *)
Definition confidence : float := 0x1.ccccccp-1%float.

(** A frame, a model output and a crosswalk confidence have arrived. *)
Definition warm_up : list input :=
  [Deliver (MsgFrame first_frame); Deliver (MsgModel payload_both);
   Deliver (MsgCrosswalk confidence)].

(** The process after the warm-up and the signal [sign]. *)
Definition after_signal (sign : string) : process :=
  main model_file (warm_up ++ [Deliver (MsgSignal sign)]).

(** The states in which the loop iterates below. *)
Definition stop_state : world := mem (after_signal "StopPermitted").
Definition chess_state : world := mem (after_signal "ChessboardMarker").

(** The same with the signal ForwardPermitted, after one iteration: a
    command has been applied. *)
Definition forward : list input :=
  warm_up ++ [Deliver (MsgSignal "ForwardPermitted"); Iterate no_key].
Definition forward_state : world := mem (main model_file forward).

(** Another way to the velocity and the steering of [stop_state]: a
    payload that is dropped, another frame, the confidence 0, the same model
    output, and no signal. *)
Definition quiet : list input :=
  [Deliver (MsgModel payload_garbage); Deliver (MsgFrame (Some 2%nat));
   Deliver (MsgCrosswalk 0); Deliver (MsgModel payload_both)].

(** What is still delivered and iterated after the operator has quit. *)
Definition afterwards : list input :=
  [Iterate no_key; Deliver (MsgModel payload_both); Iterate quit;
   Iterate no_key].

(** A schedule on which no frame is ever decoded. *)
Definition blind : list input :=
  [Iterate no_key; Deliver (MsgFrame None); Deliver (MsgModel payload_both);
   Deliver (MsgSignal "ForwardPermitted"); Iterate no_key; Iterate quit].

(** A session: the warm-up, a signal, and the operator quits. *)
Definition session : list input :=
  warm_up ++ [Deliver (MsgSignal "StopPermitted"); Iterate quit].

(** Frames, a confidence, a signal and two iterations, but no message of
    the model topic. *)
Definition model_silent : list input :=
  [Deliver (MsgFrame first_frame); Deliver (MsgCrosswalk confidence);
   Iterate no_key; Deliver (MsgSignal "StopPermitted"); Iterate no_key].

(** Other traffic after a model output. *)
Definition other_traffic : list input :=
  [Deliver (MsgCrosswalk confidence); Iterate no_key;
   Deliver (MsgSignal "ForwardPermitted"); Deliver (MsgFrame None);
   Deliver (MsgFrame first_frame); Iterate no_key].

End Sim.

(** ** Proof tools *)

(** Unfold the computations of an iteration, of a callback. *)
Ltac run_body :=
  unfold main_loop_body, main_iteration, input_line, bind, config_get,
    config_set, dict_get, lift, ret, raise, emit, modify_twist, get_twist,
    gracefulStop, record_in_model, get_info, put_info;
  simpl.

Ltac run_callback :=
  unfold callback, modelSteeringVelocityCallback, imgRgbCallback, signalCallback,
    crosswalkSurenessCallback, bind, lift, setitem, getitem, dict_get, ret,
    raise;
  simpl.

(** Two maps built by inserts at constant keys are equal. *)
Ltac same_inserts :=
  apply map_eq; intros ?; rewrite ?lookup_insert;
  repeat case_decide; congruence.

(** Decide a closed statement by running the script. *)
Ltac by_evaluation := vm_compute; first [reflexivity | discriminate | lia].

(** ** Well-formed states *)

Section Invariant.
Context `{Platform}.

Abbreviation value := (pyval ndarray).
Abbreviation dict := (gmap string value).

Lemma percentage_numeric (v : value) :
  numeric v → ∃ p, percentage v = Ok p.
Proof. destruct v; simpl; intros Hn; try contradiction; eauto. Qed.

Lemma main_config_well_formed : well_formed main_config.
Proof.
  unfold main_config.
  split; simplify_map_eq; try (eexists; split; [reflexivity | exact I]); eauto.
  intros ?; simplify_map_eq.
Qed.

(** Storing a value of the slot's type keeps the state well formed. *)
Lemma well_formed_insert_num (c : dict) (k : string) (v : value) :
  well_formed c → numeric v →
  k = "crosswalk" ∨ k = "velocity" ∨ k = "steering" →
  well_formed (<[k:=v]> c).
Proof.
  intros [Hb Hi Hc Hv Hs Hbr] Hn Hk.
  destruct Hk as [-> | [-> | ->]]; split; simplify_map_eq; eauto.
Qed.

Lemma well_formed_insert_signal (c : dict) (v : value) :
  well_formed c → well_formed (<["signal":=v]> c).
Proof.
  intros [Hb Hi Hc Hv Hs Hbr].
  split; simplify_map_eq; eauto.
Qed.

Lemma well_formed_insert_img (c : dict) (a : ndarray) :
  well_formed c → well_formed (<["img_rgb":=PyArray a]> c).
Proof.
  intros [Hb Hi Hc Hv Hs Hbr].
  split; simplify_map_eq; eauto.
Qed.

Lemma well_formed_insert_begin (c : dict) (a : ndarray) :
  well_formed c → c !! "img_rgb" = Some (PyArray a) →
  well_formed (<["begin_img":=PyBool true]> c).
Proof.
  intros [Hb Hi Hc Hv Hs Hbr] Ha.
  split; simplify_map_eq; eauto.
Qed.

Lemma callback_well_formed (m : message) (c : dict) :
  well_formed c → well_formed (state (callback m c)).
Proof.
  intros Hwf. destruct m as [data | data | data | img]; simpl.
  - apply well_formed_insert_signal, Hwf.
  - apply well_formed_insert_num; simpl; auto.
  - unfold modelSteeringVelocityCallback, bind, lift, setitem; simpl.
    destruct (json_loads data) as [j |]; simpl; [| exact Hwf].
    destruct (json_getitem j "steering") as [s | e]; simpl; [| exact Hwf].
    destruct (json_float s) as [sf | e]; simpl; [| exact Hwf].
    assert (Hwf' : well_formed (<["steering":=PyFloat sf]> c))
      by (apply well_formed_insert_num; simpl; auto).
    destruct (json_getitem j "velocity") as [v | e]; simpl; [| exact Hwf'].
    destruct (json_float v) as [vf | e]; simpl; [| exact Hwf'].
    apply well_formed_insert_num; simpl; auto.
  - unfold imgRgbCallback, bind, lift, setitem, getitem, dict_get; simpl.
    rewrite (wf_bridge c Hwf); simpl.
    destruct (imgmsg_to_cv2 img) as [a |]; simpl; [| exact Hwf].
    apply (well_formed_insert_begin _ a).
    + apply well_formed_insert_img, Hwf.
    + apply lookup_insert_eq.
Qed.
End Invariant.

(** ** One iteration of the loop *)

Section Iteration.
Context `{Platform}.

Abbreviation value := (pyval ndarray).
Abbreviation dict := (gmap string value).

(** No frame yet: [continue]. *)
Lemma iteration_idle (k : Z) (io : shutdown_io) (w : world) :
  config w !! "begin_img" = Some (PyBool false) →
  main_iteration k io w = Outcome w [] (Ok tt).
Proof. intros Hb. run_body. rewrite Hb. reflexivity. Qed.

(** A frame is there and the operator did not press q. *)
Lemma iteration_drive (k : Z) (io : shutdown_io) (w : world) (a : ndarray)
      (cw pct v s : value) :
  config w !! "begin_img" = Some (PyBool true) →
  config w !! "img_rgb" = Some (PyArray a) →
  config w !! "crosswalk" = Some cw →
  percentage cw = Ok pct →
  config w !! "velocity" = Some v →
  config w !! "steering" = Some s →
  k ≠ ord_q →
  main_iteration k io w =
    Outcome
      (World (<["img_rgb":=PyArray (putText a (overlay pct))]> (config w))
             (command v s) (info_loaded w))
      [EvImshow win_name (putText a (overlay pct)); EvWaitKey 1;
       EvPublish (command v s); EvRateSleep]
      (Ok tt).
Proof.
  intros Hb Hi Hc Hp Hv Hs Hk. run_body.
  rewrite Hb; simpl. rewrite Hc; simpl. rewrite Hp; simpl.
  rewrite Hi; simpl. rewrite lookup_insert_eq; simpl.
  rewrite lookup_insert_ne by done. rewrite Hv; simpl.
  rewrite lookup_insert_ne by done. rewrite Hs; simpl.
  destruct (decide (k = ord_q)) as [Heq | _]; [contradiction |].
  reflexivity.
Qed.

(** A frame is there and the operator pressed q: the stop command, the
    message, the first prompt, and then what the console and the file
    system allow. *)
Lemma iteration_quit (k : Z) (io : shutdown_io) (w : world) (a : ndarray)
      (cw pct v s : value) :
  config w !! "begin_img" = Some (PyBool true) →
  config w !! "img_rgb" = Some (PyArray a) →
  config w !! "crosswalk" = Some cw →
  percentage cw = Ok pct →
  config w !! "velocity" = Some v →
  config w !! "steering" = Some s →
  k = ord_q →
  main_iteration k io w =
    Outcome
      (World (<["img_rgb":=PyArray (putText a (overlay pct))]> (config w))
             stop_command (shutdown_info io (info_loaded w)))
      ([EvImshow win_name (putText a (overlay pct)); EvWaitKey 1;
        EvPublish stop_command;
        EvPrint "Stopping the autonomous driving";
        EvInput "[info.yaml] Additional comments about the model: "]
       ++ shutdown_events io (info_loaded w))
      (Raise (shutdown_exn io)).
Proof.
  intros Hb Hi Hc Hp Hv Hs Hk. run_body.
  rewrite Hb; simpl. rewrite Hc; simpl. rewrite Hp; simpl.
  rewrite Hi; simpl. rewrite lookup_insert_eq; simpl.
  rewrite lookup_insert_ne by done. rewrite Hv; simpl.
  rewrite lookup_insert_ne by done. rewrite Hs; simpl.
  destruct (decide (k = ord_q)) as [_ | Hne]; [| contradiction].
  destruct io as [[c |] [r |] [|]]; reflexivity.
Qed.

Lemma loop_body_idle (op : operator) (w : world) :
  config w !! "begin_img" = Some (PyBool false) →
  main_loop_body op w = Outcome w [] (Ok tt).
Proof. apply iteration_idle. Qed.

Lemma loop_body_drive (op : operator) (w : world) (a : ndarray)
      (cw pct v s : value) :
  config w !! "begin_img" = Some (PyBool true) →
  config w !! "img_rgb" = Some (PyArray a) →
  config w !! "crosswalk" = Some cw →
  percentage cw = Ok pct →
  config w !! "velocity" = Some v →
  config w !! "steering" = Some s →
  key op ≠ ord_q →
  main_loop_body op w =
    Outcome
      (World (<["img_rgb":=PyArray (putText a (overlay pct))]> (config w))
             (command v s) (info_loaded w))
      [EvImshow win_name (putText a (overlay pct)); EvWaitKey 1;
       EvPublish (command v s); EvRateSleep]
      (Ok tt).
Proof. apply iteration_drive. Qed.

Lemma loop_body_quit (op : operator) (w : world) (a : ndarray)
      (cw pct v s : value) :
  config w !! "begin_img" = Some (PyBool true) →
  config w !! "img_rgb" = Some (PyArray a) →
  config w !! "crosswalk" = Some cw →
  percentage cw = Ok pct →
  config w !! "velocity" = Some v →
  config w !! "steering" = Some s →
  key op = ord_q →
  main_loop_body op w =
    Outcome
      (World (<["img_rgb":=PyArray (putText a (overlay pct))]> (config w))
             stop_command (with_feedback op (info_loaded w)))
      [EvImshow win_name (putText a (overlay pct)); EvWaitKey 1;
       EvPublish stop_command;
       EvPrint "Stopping the autonomous driving";
       EvInput "[info.yaml] Additional comments about the model: ";
       EvInput
         "[info.yaml] Evaluate the model on a scale from 0 (bad) to 10 (good): ";
       EvYamlDump (with_feedback op (info_loaded w))]
      (Raise (SystemExit 0)).
Proof.
  intros Hb Hi Hc Hp Hv Hs Hk. unfold main_loop_body.
  by rewrite (iteration_quit _ _ w a cw pct v s).
Qed.

(** In a well-formed state with a frame, every slot the iteration reads is
    there and the percentage is computed. *)
Lemma active_slots (c : dict) :
  well_formed c →
  c !! "begin_img" = Some (PyBool true) →
  ∃ a cw pct v s,
    c !! "img_rgb" = Some (PyArray a) ∧ c !! "crosswalk" = Some cw
    ∧ percentage cw = Ok pct ∧ c !! "velocity" = Some v
    ∧ c !! "steering" = Some s.
Proof.
  intros [_ Hi Hc Hv Hs _] Hb.
  destruct (Hi Hb) as [a Ha], Hc as (cw & Hc & Hnc), Hv as (v & Hv & _),
    Hs as (s & Hs & _).
  destruct (percentage_numeric cw Hnc) as [pct Hp].
  exists a, cw, pct, v, s. auto.
Qed.

(** What a well-formed state with a frame publishes when q is not pressed:
    the one command of lines 168-173, after the frame is shown and before the
    rate sleep. *)
Lemma drive_events (op : operator) (w : world) (v s : value) :
  well_formed (config w) →
  config w !! "begin_img" = Some (PyBool true) →
  config w !! "velocity" = Some v →
  config w !! "steering" = Some s →
  key op ≠ ord_q →
  ∃ a,
    events (main_loop_body op w)
    = [EvImshow win_name a; EvWaitKey 1; EvPublish (command v s); EvRateSleep]
    ∧ res (main_loop_body op w) = Ok tt
    ∧ config (state (main_loop_body op w))
      = <["img_rgb":=PyArray a]> (config w).
Proof.
  intros Hwf Hb Hv Hs Hk.
  destruct (active_slots _ Hwf Hb) as (a & cw & pct & v' & s' & Ha & Hc & Hp & Hv' & Hs').
  rewrite Hv in Hv'. rewrite Hs in Hs'.
  injection Hv' as <-. injection Hs' as <-.
  exists (putText a (overlay pct)).
  rewrite (loop_body_drive op w a cw pct v s) by assumption.
  auto.
Qed.

(** The same when q is pressed. *)
Lemma quit_events (op : operator) (w : world) :
  well_formed (config w) →
  config w !! "begin_img" = Some (PyBool true) →
  key op = ord_q →
  ∃ a,
    events (main_loop_body op w)
    = [EvImshow win_name a; EvWaitKey 1;
       EvPublish stop_command;
       EvPrint "Stopping the autonomous driving";
       EvInput "[info.yaml] Additional comments about the model: ";
       EvInput
         "[info.yaml] Evaluate the model on a scale from 0 (bad) to 10 (good): ";
       EvYamlDump (with_feedback op (info_loaded w))]
    ∧ res (main_loop_body op w) = Raise (SystemExit 0)
    ∧ info_loaded (state (main_loop_body op w))
      = with_feedback op (info_loaded w).
Proof.
  intros Hwf Hb Hk.
  destruct (active_slots _ Hwf Hb) as (a & cw & pct & v & s & Ha & Hc & Hp & Hv & Hs).
  exists (putText a (overlay pct)).
  rewrite (loop_body_quit op w a cw pct v s) by assumption.
  auto.
Qed.

(** An iteration keeps the state well formed. *)
Lemma iteration_well_formed (k : Z) (io : shutdown_io) (w : world) :
  well_formed (config w) →
  well_formed (config (state (main_iteration k io w))).
Proof.
  intros Hwf.
  destruct (wf_begin_img _ Hwf) as [[|] Hb].
  - destruct (active_slots _ Hwf Hb) as (a & cw & pct & v & s & Ha & Hc & Hp & Hv & Hs).
    destruct (decide (k = ord_q)) as [Hk | Hk].
    + rewrite (iteration_quit k io w a cw pct v s) by assumption.
      simpl. apply well_formed_insert_img, Hwf.
    + rewrite (iteration_drive k io w a cw pct v s) by assumption.
      simpl. apply well_formed_insert_img, Hwf.
  - rewrite iteration_idle by assumption. exact Hwf.
Qed.

Lemma loop_body_well_formed (op : operator) (w : world) :
  well_formed (config w) →
  well_formed (config (state (main_loop_body op w))).
Proof. apply iteration_well_formed. Qed.
End Iteration.

(** ** The process *)

Section Process.
Context `{Platform}.

Abbreviation value := (pyval ndarray).
Abbreviation dict := (gmap string value).

Lemma run_cons (i : input) (ins : list input) (p : process) :
  run (i :: ins) p = run ins (step p i).
Proof. reflexivity. Qed.

Lemma run_app (ins ins' : list input) (p : process) :
  run (ins ++ ins') p = run ins' (run ins p).
Proof. apply fold_left_app. Qed.

(** Once the process has exited nothing happens any more. *)
Lemma run_exited (ins : list input) (p : process) (code : Z) :
  exited p = Some code → run ins p = p.
Proof.
  intros He. induction ins as [| i ins IH]; [reflexivity |].
  rewrite run_cons. unfold step. rewrite He. exact IH.
Qed.

Lemma step_well_formed (p : process) (i : input) :
  well_formed (config (mem p)) → well_formed (config (mem (step p i))).
Proof.
  intros Hwf. unfold step.
  destruct (exited p); [exact Hwf |].
  destruct i as [m | op | k io]; simpl.
  - apply callback_well_formed, Hwf.
  - apply loop_body_well_formed, Hwf.
  - apply iteration_well_formed, Hwf.
Qed.

Lemma run_well_formed (ins : list input) (p : process) :
  well_formed (config (mem p)) → well_formed (config (mem (run ins p))).
Proof.
  revert p. induction ins as [| i ins IH]; intros p Hwf; [exact Hwf |].
  rewrite run_cons. apply IH, step_well_formed, Hwf.
Qed.

(** Every state [main] reaches is well formed. *)
Lemma main_well_formed (i : info) (ins : list input) :
  well_formed (config (mem (main i ins))).
Proof. apply run_well_formed, main_config_well_formed. Qed.
End Process.

(** ** The callbacks *)

Section Callbacks.
Context `{Platform}.

Abbreviation value := (pyval ndarray).
Abbreviation dict := (gmap string value).

(** The callback of the model topic in terms of the two decoded numbers:
    the steering is stored before the velocity is looked at. *)
Lemma model_callback_cases (payload : string) (c : dict) :
  modelSteeringVelocityCallback payload c =
    match payload_field payload "steering" with
    | Raise e => Outcome c [] (Raise e)
    | Ok sf =>
        match payload_field payload "velocity" with
        | Raise e => Outcome (<["steering":=PyFloat sf]> c) [] (Raise e)
        | Ok vf =>
            Outcome (<["velocity":=PyFloat vf]> (<["steering":=PyFloat sf]> c))
                    [] (Ok tt)
        end
    end.
Proof.
  unfold payload_field. run_callback.
  destruct (json_loads payload) as [j |]; simpl; [| reflexivity].
  destruct (json_getitem j "steering") as [s | e]; simpl; [| reflexivity].
  destruct (json_float s) as [sf | e]; simpl; [| reflexivity].
  destruct (json_getitem j "velocity") as [v | e]; simpl; [| reflexivity].
  destruct (json_float v) as [vf | e]; reflexivity.
Qed.

(** A callback writes nothing but [config]. *)
Lemma callback_silent (m : message) (c : dict) :
  events (callback m c) = [].
Proof.
  destruct m as [data | data | data | img]; simpl.
  - reflexivity.
  - reflexivity.
  - rewrite model_callback_cases.
    destruct (payload_field data "steering"); [| reflexivity].
    destruct (payload_field data "velocity"); reflexivity.
  - run_callback.
    destruct (c !! "bridge") as [b |]; simpl; [| reflexivity].
    destruct b; simpl; try reflexivity.
    destruct (imgmsg_to_cv2 img); reflexivity.
Qed.

(** A callback leaves the slots it does not own as they are. *)
Lemma callback_other_slots (m : message) (c : dict) (k : string) :
  k ∉ owned m → state (callback m c) !! k = c !! k.
Proof.
  intros Hk.
  destruct m as [data | data | data | img]; simpl in Hk; simpl.
  - apply lookup_insert_ne. set_solver.
  - apply lookup_insert_ne. set_solver.
  - assert (Hs : "steering" ≠ k) by set_solver.
    assert (Hv : "velocity" ≠ k) by set_solver.
    rewrite model_callback_cases.
    destruct (payload_field data "steering"); [| reflexivity].
    destruct (payload_field data "velocity"); simpl;
      by rewrite ?lookup_insert_ne.
  - assert (Hi : "img_rgb" ≠ k) by set_solver.
    assert (Hb : "begin_img" ≠ k) by set_solver.
    run_callback.
    destruct (c !! "bridge") as [b |]; simpl; [| reflexivity].
    destruct b; simpl; try reflexivity.
    destruct (imgmsg_to_cv2 img); simpl; [| reflexivity].
    by rewrite !lookup_insert_ne.
Qed.

(** A frame that is not decoded changes nothing. *)
Lemma frame_not_decoded (img : Image) (c : dict) :
  imgmsg_to_cv2 img = None → state (imgRgbCallback img c) = c.
Proof.
  intros Hd. run_callback.
  destruct (c !! "bridge") as [b |]; simpl; [| reflexivity].
  destruct b; simpl; try reflexivity.
  rewrite Hd. reflexivity.
Qed.

(** A payload with both numbers stores both. *)
Lemma model_callback_stores (payload : string) (c : dict) (sf vf : float) :
  payload_field payload "steering" = Ok sf →
  payload_field payload "velocity" = Ok vf →
  modelSteeringVelocityCallback payload c
  = Outcome (<["velocity":=PyFloat vf]> (<["steering":=PyFloat sf]> c))
            [] (Ok tt).
Proof. intros Hs Hv. rewrite model_callback_cases, Hs, Hv. reflexivity. Qed.
End Callbacks.

(** ** Properties of the control loop *)

Section Loop.
Context `{Platform}.

Abbreviation value := (pyval ndarray).
Abbreviation dict := (gmap string value).

(** A callback that decodes no frame leaves [begin_img] as it is. *)
Lemma callback_keeps_begin_img (m : message) (c : dict) :
  no_frame (Deliver m) →
  state (callback m c) !! "begin_img" = c !! "begin_img".
Proof.
  intros Hn. destruct m as [data | data | data | img]; simpl in Hn.
  1-3: apply callback_other_slots; simpl;
    rewrite ?elem_of_union, !elem_of_singleton; intuition discriminate.
  simpl. by rewrite frame_not_decoded.
Qed.

(** While no frame has been decoded the process stays idle and silent. *)
Lemma idle_run (ins : list input) (p : process) :
  Forall no_frame ins →
  config (mem p) !! "begin_img" = Some (PyBool false) →
  exited p = None →
  output (run ins p) = output p
  ∧ exited (run ins p) = None
  ∧ config (mem (run ins p)) !! "begin_img" = Some (PyBool false).
Proof.
  intros Hins. revert p.
  induction Hins as [| i ins Hi _ IH]; intros p Hb He; [auto |].
  rewrite run_cons.
  assert (Hstep : output (step p i) = output p ∧ exited (step p i) = None
                  ∧ config (mem (step p i)) !! "begin_img" = Some (PyBool false)).
  { unfold step. rewrite He. destruct i as [m | op | k io]; simpl.
    - rewrite callback_silent, app_nil_r.
      rewrite (callback_keeps_begin_img m _ Hi). auto.
    - rewrite (loop_body_idle op _ Hb). simpl. rewrite app_nil_r. auto.
    - rewrite (iteration_idle k io _ Hb). simpl. rewrite app_nil_r. auto. }
  destruct Hstep as (Ho & He' & Hb').
  destruct (IH (step p i) Hb' He') as (Ho'' & He'' & Hb'').
  rewrite Ho'', Ho. auto.
Qed.

(** C4. Before the first camera frame is decoded, whatever else is
    delivered and however often the loop iterates, the process publishes no
    command and shows nothing. *)
Theorem idle_before_first_frame (i : info) (ins : list input) :
  Forall no_frame ins →
  published (output (main i ins)) = []
  ∧ displayed (output (main i ins)) = []
  ∧ exited (main i ins) = None.
Proof.
  intros Hins.
  destruct (idle_run ins (main_start i) Hins) as (Ho & He & _);
    [reflexivity | reflexivity |].
  unfold main. rewrite Ho, He. auto.
Qed.

(** C5. An iteration with a frame and without the abort key publishes
    exactly one command: linear = (velocity, 0, 0) and angular =
    (0, 0, steering), with the velocity and the steering the model callback
    stored last.  The script has no policy rule, so no rule matches on any
    iteration. *)
Theorem pass_through_command (i : info) (ins : list input) (op : operator)
    (v s : value) :
  config (mem (main i ins)) !! "begin_img" = Some (PyBool true) →
  config (mem (main i ins)) !! "velocity" = Some v →
  config (mem (main i ins)) !! "steering" = Some s →
  key op ≠ ord_q →
  published (events (main_loop_body op (mem (main i ins))))
  = [mkTwist (mkVector3 v (PyInt 0) (PyInt 0))
             (mkVector3 (PyInt 0) (PyInt 0) s)]
  ∧ res (main_loop_body op (mem (main i ins))) = Ok tt.
Proof.
  intros Hb Hv Hs Hk.
  destruct (drive_events op _ v s (main_well_formed i ins) Hb Hv Hs Hk)
    as (a & -> & -> & _).
  auto.
Qed.

(** The command of the iteration that follows a model output carries the
    two numbers of that output. *)
Lemma reported_command_published (i : info) (ins : list input)
    (payload : string) (op : operator) (sf vf : float) :
  exited (main i ins) = None →
  config (mem (main i ins)) !! "begin_img" = Some (PyBool true) →
  payload_field payload "steering" = Ok sf →
  payload_field payload "velocity" = Ok vf →
  key op ≠ ord_q →
  published
    (events
       (main_loop_body op (mem (main i (ins ++ [Deliver (MsgModel payload)])))))
  = [command (PyFloat vf) (PyFloat sf)].
Proof.
  intros He Hb Hs Hv Hk.
  pose proof (main_well_formed i (ins ++ [Deliver (MsgModel payload)])) as Hwf.
  assert (Hc : config (mem (main i (ins ++ [Deliver (MsgModel payload)])))
               = <["velocity":=PyFloat vf]>
                   (<["steering":=PyFloat sf]> (config (mem (main i ins))))).
  { unfold main in *. rewrite run_app. simpl. unfold step. rewrite He. simpl.
    by rewrite (model_callback_stores payload _ sf vf). }
  destruct (drive_events op _ (PyFloat vf) (PyFloat sf) Hwf) as (a & -> & _).
  - rewrite Hc, !lookup_insert_ne by done. exact Hb.
  - rewrite Hc. apply lookup_insert_eq.
  - rewrite Hc, lookup_insert_ne by done. apply lookup_insert_eq.
  - exact Hk.
  - reflexivity.
Qed.

(** C10. Two states with a frame that agree on the velocity and the
    steering slots publish the same commands on an iteration without the
    abort key, whatever their signal and crosswalk slots hold. *)
Theorem command_ignores_perception (i1 i2 : info) (ins1 ins2 : list input)
    (op : operator) :
  config (mem (main i1 ins1)) !! "begin_img" = Some (PyBool true) →
  config (mem (main i2 ins2)) !! "begin_img" = Some (PyBool true) →
  config (mem (main i1 ins1)) !! "velocity"
  = config (mem (main i2 ins2)) !! "velocity" →
  config (mem (main i1 ins1)) !! "steering"
  = config (mem (main i2 ins2)) !! "steering" →
  key op ≠ ord_q →
  published (events (main_loop_body op (mem (main i1 ins1))))
  = published (events (main_loop_body op (mem (main i2 ins2)))).
Proof.
  intros Hb1 Hb2 Hv Hs Hk.
  pose proof (main_well_formed i1 ins1) as Hwf1.
  pose proof (main_well_formed i2 ins2) as Hwf2.
  destruct (wf_velocity _ Hwf1) as (v & Hv1 & _).
  destruct (wf_steering _ Hwf1) as (s & Hs1 & _).
  assert (Hv2 := Hv1). rewrite Hv in Hv2.
  assert (Hs2 := Hs1). rewrite Hs in Hs2.
  destruct (drive_events op _ v s Hwf1 Hb1 Hv1 Hs1 Hk) as (a1 & -> & _).
  destruct (drive_events op _ v s Hwf2 Hb2 Hv2 Hs2 Hk) as (a2 & -> & _).
  reflexivity.
Qed.
End Loop.

(** ** The signal and the crosswalk confidence *)

Section Signals.
Context `{Platform}.

Abbreviation value := (pyval ndarray).
Abbreviation dict := (gmap string value).

(** After an iteration that publishes, the next one publishes the same
    command if nothing is delivered in between. *)
Lemma drive_again (op op' : operator) (w : world) (v s : value) :
  well_formed (config w) →
  config w !! "begin_img" = Some (PyBool true) →
  config w !! "velocity" = Some v →
  config w !! "steering" = Some s →
  key op ≠ ord_q →
  key op' ≠ ord_q →
  published (events (main_loop_body op' (state (main_loop_body op w))))
  = [command v s].
Proof.
  intros Hwf Hb Hv Hs Hk Hk'.
  pose proof (loop_body_well_formed op w Hwf) as Hwf'.
  destruct (drive_events op w v s Hwf Hb Hv Hs Hk) as (a & _ & _ & Hc).
  destruct (drive_events op' (state (main_loop_body op w)) v s Hwf')
    as (a' & -> & _); try assumption;
    try (rewrite Hc, lookup_insert_ne by done; assumption).
  reflexivity.
Qed.

(** C1, as the script has it.  With the signal StopPermitted and a
    crosswalk confidence above the threshold, an iteration without the abort
    key does not call [time.sleep] and publishes the velocity the model
    reported, not 0. *)
Theorem stop_signal_passes_through (i : info) (ins : list input)
    (op : operator) (c : float) (v s : value) :
  config (mem (main i ins)) !! "begin_img" = Some (PyBool true) →
  config (mem (main i ins)) !! "signal" = Some (PyStr "StopPermitted") →
  config (mem (main i ins)) !! "crosswalk" = Some (PyFloat c) →
  PrimFloat.ltb crosswalk_threshold c = true →
  config (mem (main i ins)) !! "velocity" = Some v →
  config (mem (main i ins)) !! "steering" = Some s →
  key op ≠ ord_q →
  slept (events (main_loop_body op (mem (main i ins)))) = []
  ∧ published (events (main_loop_body op (mem (main i ins)))) = [command v s]
  ∧ res (main_loop_body op (mem (main i ins))) = Ok tt.
Proof.
  intros Hb _ _ _ Hv Hs Hk.
  destruct (drive_events op _ v s (main_well_formed i ins) Hb Hv Hs Hk)
    as (a & -> & -> & _).
  auto.
Qed.

(** C2, as the script has it.  With the signal ChessboardMarker and a
    crosswalk confidence above the threshold, an iteration without the abort
    key does not call [time.sleep], publishes the velocity and the steering
    the model reported, and the process goes on: the next iteration
    publishes again. *)
Theorem chessboard_signal_passes_through (i : info) (ins : list input)
    (op : operator) (c : float) (v s : value) :
  exited (main i ins) = None →
  config (mem (main i ins)) !! "begin_img" = Some (PyBool true) →
  config (mem (main i ins)) !! "signal" = Some (PyStr "ChessboardMarker") →
  config (mem (main i ins)) !! "crosswalk" = Some (PyFloat c) →
  PrimFloat.ltb crosswalk_threshold c = true →
  config (mem (main i ins)) !! "velocity" = Some v →
  config (mem (main i ins)) !! "steering" = Some s →
  key op ≠ ord_q →
  slept (events (main_loop_body op (mem (main i ins)))) = []
  ∧ published (events (main_loop_body op (mem (main i ins)))) = [command v s]
  ∧ exited (main i (ins ++ [Iterate op])) = None
  ∧ published
      (events (main_loop_body op (mem (main i (ins ++ [Iterate op])))))
    = [command v s].
Proof.
  intros He Hb _ _ _ Hv Hs Hk.
  pose proof (main_well_formed i ins) as Hwf.
  pose proof (drive_again op op _ v s Hwf Hb Hv Hs Hk Hk) as Hnext.
  destruct (drive_events op _ v s Hwf Hb Hv Hs Hk) as (a & Hev & Hres & _).
  unfold main in *. rewrite run_app. simpl. unfold step. rewrite He. simpl.
  rewrite Hres, Hev. auto.
Qed.

(** C3, as the script has it.  With the signal ForwardPermitted and a last
    command whose velocity is not the cruise velocity of the model file, an
    iteration without the abort key publishes the velocity the model
    reported, whatever the cruise velocity is. *)
Theorem forward_signal_passes_through (i : info) (ins : list input)
    (op : operator) (v s : value) :
  config (mem (main i ins)) !! "begin_img" = Some (PyBool true) →
  config (mem (main i ins)) !! "signal" = Some (PyStr "ForwardPermitted") →
  x (linear (twist (mem (main i ins)))) ≠ linear_velocity (mem (main i ins)) →
  config (mem (main i ins)) !! "velocity" = Some v →
  config (mem (main i ins)) !! "steering" = Some s →
  key op ≠ ord_q →
  published (events (main_loop_body op (mem (main i ins)))) = [command v s].
Proof.
  intros Hb _ _ Hv Hs Hk.
  destruct (drive_events op _ v s (main_well_formed i ins) Hb Hv Hs Hk)
    as (a & -> & _).
  reflexivity.
Qed.
End Signals.

(** ** The abort key *)

Section Shutdown.
Context `{Platform}.

Abbreviation value := (pyval ndarray).
Abbreviation dict := (gmap string value).

Lemma record_feedback_appended (k text : string) (m : gmap string string) :
  appended k text m (record_feedback k text m).
Proof.
  unfold appended, record_feedback.
  destruct (m !! k) as [old |]; apply lookup_insert_eq.
Qed.

Lemma record_feedback_other (k k' text : string) (m : gmap string string) :
  k ≠ k' → record_feedback k text m !! k' = m !! k'.
Proof.
  intros Hk. unfold record_feedback.
  destruct (m !! k) as [old |]; by apply lookup_insert_ne.
Qed.

(** C6, as the script has it.  When q is pressed with a frame there, the
    iteration publishes the command with velocity 0 and steering 0 once,
    prints, and prompts for the comments.  When both prompts are answered
    and the model file can be written, it then prompts for the rating and
    writes the record, in which the comments and the rating are appended
    by the append rule and every other entry is as it was, and the process
    ends with status 0.  When the input ends at a prompt or the file cannot
    be opened, nothing is written and the process ends with status 1.  In
    every case nothing that is delivered or iterated afterwards adds an
    output. *)
Theorem quit_sequence (i : info) (ins rest : list input) (k : Z)
    (io : shutdown_io) :
  exited (main i ins) = None →
  config (mem (main i ins)) !! "begin_img" = Some (PyBool true) →
  k = ord_q →
  ∃ a tail,
    output (main i (ins ++ IterateIO k io :: rest))
    = output (main i ins)
      ++ [EvImshow win_name a; EvWaitKey 1;
          EvPublish (command (PyInt 0) (PyInt 0));
          EvPrint "Stopping the autonomous driving";
          EvInput "[info.yaml] Additional comments about the model: "]
      ++ tail
    ∧ match comments_line io, rating_line io, file_ok io with
      | Some c, Some r, true =>
          ∃ saved,
            tail
            = [EvInput
                 "[info.yaml] Evaluate the model on a scale from 0 (bad) to 10 (good): ";
               EvYamlDump saved]
            ∧ appended "driving_comments" c
                (model (info_loaded (mem (main i ins)))) (model saved)
            ∧ appended "driving_model_eval" (r +:+ "/10")
                (model (info_loaded (mem (main i ins)))) (model saved)
            ∧ (∀ entry, entry ≠ "driving_comments" →
                 entry ≠ "driving_model_eval" →
                 model saved !! entry
                 = model (info_loaded (mem (main i ins))) !! entry)
            ∧ dataset_linear_velocity saved
              = dataset_linear_velocity (info_loaded (mem (main i ins)))
            ∧ exited (main i (ins ++ IterateIO k io :: rest)) = Some 0%Z
      | Some _, Some _, false | Some _, None, _ =>
          tail
          = [EvInput
               "[info.yaml] Evaluate the model on a scale from 0 (bad) to 10 (good): "]
          ∧ exited (main i (ins ++ IterateIO k io :: rest)) = Some 1%Z
      | None, _, _ =>
          tail = []
          ∧ exited (main i (ins ++ IterateIO k io :: rest)) = Some 1%Z
      end.
Proof.
  intros He Hb Hk.
  destruct (active_slots _ (main_well_formed i ins) Hb)
    as (a & cw & pct & v & s & Ha & Hc & Hp & Hv & Hs).
  pose proof (iteration_quit k io _ a cw pct v s Hb Ha Hc Hp Hv Hs Hk) as Hq.
  set (m := model (info_loaded (mem (main i ins)))).
  exists (putText a (overlay pct)), (shutdown_events io (info_loaded (mem (main i ins)))).
  assert (Hrun : run (IterateIO k io :: rest) (main i ins)
                 = Process (state (main_iteration k io (mem (main i ins))))
                           (output (main i ins)
                            ++ events (main_iteration k io (mem (main i ins))))
                           (Some (exit_status (shutdown_exn io)))).
  { rewrite run_cons.
    rewrite (run_exited rest _ (exit_status (shutdown_exn io)));
      unfold step; rewrite He; simpl; by rewrite Hq. }
  unfold main in *. rewrite run_app, Hrun. simpl. rewrite Hq. simpl.
  split; [reflexivity |].
  destruct io as [[c |] [r |] [|]]; simpl; try done.
  eexists. split; [reflexivity |]. simpl. fold m. split_and!; try done.
  - unfold appended. rewrite record_feedback_other by done.
    apply record_feedback_appended.
  - pose proof (record_feedback_appended "driving_model_eval" (r +:+ "/10")
                  (record_feedback "driving_comments" c m)) as Hap.
    unfold appended in *.
    rewrite record_feedback_other in Hap by done. exact Hap.
  - intros entry Hc' Hm'. by rewrite !record_feedback_other.
Qed.

End Shutdown.

(** ** What a callback may change *)

Section Handlers.
Context `{Platform}.

Abbreviation value := (pyval ndarray).
Abbreviation dict := (gmap string value).

(** C9, as the script has it.  A callback changes no slot of [config]
    but its own ([signal]; [crosswalk]; [steering] and [velocity];
    [img_rgb] and [begin_img]), and it changes neither the Twist nor the
    model record, and has no output. *)
Theorem callback_changes_own_slots_only (m : message) (w : world)
    (k : string) :
  k ∉ owned m →
  config (state (deliver m w)) !! k = config w !! k
  ∧ twist (state (deliver m w)) = twist w
  ∧ info_loaded (state (deliver m w)) = info_loaded w
  ∧ events (deliver m w) = [].
Proof.
  intros Hk. unfold deliver; simpl.
  rewrite callback_other_slots by assumption.
  rewrite callback_silent. auto.
Qed.

(** C7, as the script has it.  On a malformed payload the callback of
    the model topic raises to its caller; every slot but [steering], so
    [velocity] too, keeps its value; and when it is the steering that cannot
    be decoded, [config] is unchanged. *)
Theorem malformed_payload_raises (payload : string) (c : dict) :
  malformed payload →
  fails (res (modelSteeringVelocityCallback payload c))
  ∧ (∀ k, k ≠ "steering" →
       state (modelSteeringVelocityCallback payload c) !! k = c !! k)
  ∧ (fails (payload_field payload "steering") →
       state (modelSteeringVelocityCallback payload c) = c).
Proof.
  intros Hm. rewrite model_callback_cases. unfold malformed in Hm.
  destruct (payload_field payload "steering") as [sf | e]; simpl in *.
  - destruct (payload_field payload "velocity") as [vf | e]; simpl in *.
    + tauto.
    + repeat split; [| tauto].
      intros k Hk. by apply lookup_insert_ne.
  - auto.
Qed.
End Handlers.

(** ** Whole runs of the process *)

Section Traces.
Context `{Platform}.

Abbreviation value := (pyval ndarray).
Abbreviation dict := (gmap string value).

(** The three ways an iteration goes in a well-formed state: no frame yet,
    a frame and no q, a frame and q. *)
Lemma loop_body_cases (op : operator) (w : world) :
  well_formed (config w) →
  (config w !! "begin_img" = Some (PyBool false)
   ∧ main_loop_body op w = Outcome w [] (Ok tt))
  ∨ (∃ a cw pct v s,
       config w !! "begin_img" = Some (PyBool true)
       ∧ config w !! "img_rgb" = Some (PyArray a)
       ∧ config w !! "crosswalk" = Some cw ∧ percentage cw = Ok pct
       ∧ config w !! "velocity" = Some v ∧ numeric v
       ∧ config w !! "steering" = Some s ∧ numeric s
       ∧ ((key op ≠ ord_q
           ∧ main_loop_body op w =
               Outcome
                 (World (<["img_rgb":=PyArray (putText a (overlay pct))]> (config w))
                        (command v s) (info_loaded w))
                 [EvImshow win_name (putText a (overlay pct)); EvWaitKey 1;
                  EvPublish (command v s); EvRateSleep]
                 (Ok tt))
          ∨ (key op = ord_q
             ∧ main_loop_body op w =
                 Outcome
                   (World (<["img_rgb":=PyArray (putText a (overlay pct))]> (config w))
                          stop_command (with_feedback op (info_loaded w)))
                   [EvImshow win_name (putText a (overlay pct)); EvWaitKey 1;
                    EvPublish stop_command;
                    EvPrint "Stopping the autonomous driving";
                    EvInput "[info.yaml] Additional comments about the model: ";
                    EvInput
                      "[info.yaml] Evaluate the model on a scale from 0 (bad) to 10 (good): ";
                    EvYamlDump (with_feedback op (info_loaded w))]
                   (Raise (SystemExit 0))))).
Proof.
  intros Hwf.
  destruct (wf_begin_img _ Hwf) as [[|] Hb].
  - right.
    destruct (wf_img_rgb _ Hwf Hb) as [a Ha].
    destruct (wf_crosswalk _ Hwf) as (cw & Hc & Hnc).
    destruct (wf_velocity _ Hwf) as (v & Hv & Hnv).
    destruct (wf_steering _ Hwf) as (s & Hs & Hns).
    destruct (percentage_numeric cw Hnc) as [pct Hp].
    exists a, cw, pct, v, s. split_and!; try assumption.
    destruct (decide (key op = ord_q)) as [Hk | Hk]; [right | left];
      (split; [exact Hk |]).
    + by apply (loop_body_quit op w a cw pct v s).
    + by apply (loop_body_drive op w a cw pct v s).
  - left. split; [exact Hb |]. by apply loop_body_idle.
Qed.

(** A property every step keeps holds after every run. *)
Lemma run_invariant (Q : input → Prop) (P : process → Prop) :
  (∀ p i, Q i → P p → P (step p i)) →
  ∀ ins p, Forall Q ins → P p → P (run ins p).
Proof.
  intros Hstep ins. induction ins as [| i ins IH]; intros p Hq Hp; [exact Hp |].
  rewrite run_cons. inversion Hq as [| ? ? Hi Hins]; subst.
  apply IH; [exact Hins |]. by apply Hstep.
Qed.

Lemma Forall_any (ins : list input) : Forall (λ _, True) ins.
Proof. induction ins; constructor; auto. Qed.

(** A delivery in a running process: no output, the Twist and the model
    record stay, the process goes on. *)
Lemma step_deliver (p : process) (m : message) :
  exited p = None →
  step p (Deliver m)
  = Process (set_config (state (callback m (config (mem p)))) (mem p))
            (output p) None.
Proof.
  intros He. unfold step, deliver. rewrite He. simpl.
  by rewrite callback_silent, app_nil_r.
Qed.

Lemma step_iterate (p : process) (op : operator) :
  exited p = None →
  step p (Iterate op)
  = Process (state (main_loop_body op (mem p)))
            (output p ++ events (main_loop_body op (mem p)))
            (match res (main_loop_body op (mem p)) with
             | Ok _ => None
             | Raise e => Some (exit_status e)
             end).
Proof. intros He. unfold step. by rewrite He. Qed.

Lemma step_exited (p : process) (i : input) (code : Z) :
  exited p = Some code → step p i = p.
Proof. intros He. unfold step. by rewrite He. Qed.
Lemma step_iterate_io (p : process) (k : Z) (io : shutdown_io) :
  exited p = None →
  step p (IterateIO k io)
  = Process (state (main_iteration k io (mem p)))
            (output p ++ events (main_iteration k io (mem p)))
            (match res (main_iteration k io (mem p)) with
             | Ok _ => None
             | Raise e => Some (exit_status e)
             end).
Proof. intros He. unfold step. by rewrite He. Qed.

(** [Iterate op] is the iteration with the answers of [op]. *)
Lemma step_iterate_op (p : process) (op : operator) :
  step p (Iterate op) = step p (IterateIO (key op) (answers op)).
Proof. reflexivity. Qed.

(** The three ways an iteration goes in a well-formed state, for every
    console and file system. *)
Lemma iteration_cases (k : Z) (io : shutdown_io) (w : world) :
  well_formed (config w) →
  (config w !! "begin_img" = Some (PyBool false)
   ∧ main_iteration k io w = Outcome w [] (Ok tt))
  ∨ (∃ a cw pct v s,
       config w !! "begin_img" = Some (PyBool true)
       ∧ config w !! "img_rgb" = Some (PyArray a)
       ∧ config w !! "crosswalk" = Some cw ∧ percentage cw = Ok pct
       ∧ config w !! "velocity" = Some v ∧ numeric v
       ∧ config w !! "steering" = Some s ∧ numeric s
       ∧ ((k ≠ ord_q
           ∧ main_iteration k io w =
               Outcome
                 (World (<["img_rgb":=PyArray (putText a (overlay pct))]> (config w))
                        (command v s) (info_loaded w))
                 [EvImshow win_name (putText a (overlay pct)); EvWaitKey 1;
                  EvPublish (command v s); EvRateSleep]
                 (Ok tt))
          ∨ (k = ord_q
             ∧ main_iteration k io w =
                 Outcome
                   (World (<["img_rgb":=PyArray (putText a (overlay pct))]> (config w))
                          stop_command (shutdown_info io (info_loaded w)))
                   ([EvImshow win_name (putText a (overlay pct)); EvWaitKey 1;
                     EvPublish stop_command;
                     EvPrint "Stopping the autonomous driving";
                     EvInput "[info.yaml] Additional comments about the model: "]
                    ++ shutdown_events io (info_loaded w))
                   (Raise (shutdown_exn io))))).
Proof.
  intros Hwf.
  destruct (wf_begin_img _ Hwf) as [[|] Hb].
  - right.
    destruct (wf_img_rgb _ Hwf Hb) as [a Ha].
    destruct (wf_crosswalk _ Hwf) as (cw & Hc & Hnc).
    destruct (wf_velocity _ Hwf) as (v & Hv & Hnv).
    destruct (wf_steering _ Hwf) as (s & Hs & Hns).
    destruct (percentage_numeric cw Hnc) as [pct Hp].
    exists a, cw, pct, v, s. split_and!; try assumption.
    destruct (decide (k = ord_q)) as [Hk | Hk]; [right | left];
      (split; [exact Hk |]).
    + by apply (iteration_quit k io w a cw pct v s).
    + by apply (iteration_drive k io w a cw pct v s).
  - left. split; [exact Hb |]. by apply iteration_idle.
Qed.

(** After the first prompt nothing is published any more. *)
Lemma published_shutdown_events (io : shutdown_io) (i : info) :
  published (shutdown_events io i) = [].
Proof. by destruct io as [[c |] [r |] [|]]. Qed.

(** The quit branch writes the model file when both prompts are answered
    and the file can be opened, and then exits with status 0; otherwise it
    writes nothing and the status is 1. *)
Lemma dumped_shutdown_events (io : shutdown_io) (i : info) :
  (dumped (shutdown_events io i) = [shutdown_info io i]
   ∧ exit_status (shutdown_exn io) = 0%Z)
  ∨ (dumped (shutdown_events io i) = []
     ∧ exit_status (shutdown_exn io) = 1%Z).
Proof. destruct io as [[c |] [r |] [|]]; simpl; auto. Qed.

(** What an iteration in a well-formed state publishes: nothing, the
    command of the velocity and steering slots, or the stop command. *)
Lemma iteration_published (k : Z) (io : shutdown_io) (w : world) :
  well_formed (config w) →
  ∃ v s,
    config w !! "velocity" = Some v ∧ numeric v
    ∧ config w !! "steering" = Some s ∧ numeric s
    ∧ (published (events (main_iteration k io w)) = []
       ∨ published (events (main_iteration k io w)) = [command v s]
       ∨ published (events (main_iteration k io w)) = [stop_command]).
Proof.
  intros Hwf.
  destruct (wf_velocity _ Hwf) as (v & Hv & Hnv).
  destruct (wf_steering _ Hwf) as (s & Hs & Hns).
  exists v, s. split_and!; try assumption.
  destruct (iteration_cases k io w Hwf)
    as [[_ ->] | (a & cw & pct & v' & s' & _ & _ & _ & _ & Hv' & _ & Hs' & _
                  & [[_ ->] | [_ ->]])]; simpl.
  - auto.
  - rewrite Hv in Hv'. rewrite Hs in Hs'.
    injection Hv' as <-. injection Hs' as <-. auto.
  - rewrite published_shutdown_events. auto.
Qed.

(** An iteration in a well-formed state changes no slot of [config] but
    [img_rgb]. *)
Lemma iteration_other_slots (k : Z) (io : shutdown_io) (w : world)
    (slot : string) :
  well_formed (config w) → slot ≠ "img_rgb" →
  config (state (main_iteration k io w)) !! slot = config w !! slot.
Proof.
  intros Hwf Hk.
  destruct (iteration_cases k io w Hwf)
    as [[_ ->] | (a & cw & pct & v & s & _ & _ & _ & _ & _ & _ & _ & _
                  & [[_ ->] | [_ ->]])]; simpl;
    by rewrite ?lookup_insert_ne.
Qed.

Lemma published_app (evs evs' : list event) :
  published (evs ++ evs') = published evs ++ published evs'.
Proof. apply omap_app. Qed.

Lemma dumped_app (evs evs' : list event) :
  dumped (evs ++ evs') = dumped evs ++ dumped evs'.
Proof. apply omap_app. Qed.





(** A process [main] has started either runs, has written nothing and
    holds the model record it loaded; or has exited with status 1 and
    written nothing; or has exited with status 0 after one write. *)
Lemma main_run_cases (i : info) (ins : list input) :
  (exited (main i ins) = None
   ∧ dumped (output (main i ins)) = []
   ∧ info_loaded (mem (main i ins)) = i)
  ∨ (exited (main i ins) = Some 1%Z ∧ dumped (output (main i ins)) = [])
  ∨ (exited (main i ins) = Some 0%Z
     ∧ ∃ saved, dumped (output (main i ins)) = [saved]).
Proof.
  pose (P := λ p : process,
          well_formed (config (mem p))
          ∧ ((exited p = None ∧ dumped (output p) = []
              ∧ info_loaded (mem p) = i)
             ∨ (exited p = Some 1%Z ∧ dumped (output p) = [])
             ∨ (exited p = Some 0%Z ∧ ∃ saved, dumped (output p) = [saved]))).
  assert (HP : P (main i ins)).
  { apply (run_invariant (λ _, True) P); [| apply Forall_any |].
    - intros p inp _ [Hwf Hcases]. split; [by apply step_well_formed |].
      destruct Hcases as [(He & Hd & Hi) | [[He Hd] | [He Hd]]].
      + assert (Hio : ∀ k io,
                   (exited (step p (IterateIO k io)) = None
                    ∧ dumped (output (step p (IterateIO k io))) = []
                    ∧ info_loaded (mem (step p (IterateIO k io))) = i)
                   ∨ (exited (step p (IterateIO k io)) = Some 1%Z
                      ∧ dumped (output (step p (IterateIO k io))) = [])
                   ∨ (exited (step p (IterateIO k io)) = Some 0%Z
                      ∧ ∃ saved,
                          dumped (output (step p (IterateIO k io))) = [saved])).
        { intros k io. rewrite step_iterate_io by assumption.
          destruct (iteration_cases k io (mem p) Hwf)
            as [[_ ->] | (a & cw & pct & v & s & _ & _ & _ & _ & _ & _ & _ & _
                          & [[_ ->] | [_ ->]])]; simpl.
          - left. rewrite app_nil_r. auto.
          - left. rewrite dumped_app, Hd. auto.
          - right. rewrite dumped_app, Hd. simpl.
            destruct (dumped_shutdown_events io (info_loaded (mem p)))
              as [[-> ->] | [-> ->]]; eauto. }
        destruct inp as [m | op | k io].
        * rewrite step_deliver by assumption. left. auto.
        * rewrite step_iterate_op. apply Hio.
        * apply Hio.
      + rewrite (step_exited p inp 1%Z He). auto.
      + rewrite (step_exited p inp 0%Z He). auto.
    - split; [apply main_config_well_formed |]. left. auto. }
  exact (proj2 HP).
Qed.

(** X2. The model file is written at most once.  A process that is still
    running has not written it, and a process that has written it has
    exited with status 0. *)
Theorem model_file_written_at_most_once (i : info) (ins : list input) :
  (exited (main i ins) = None → dumped (output (main i ins)) = [])
  ∧ length (dumped (output (main i ins))) ≤ 1
  ∧ (dumped (output (main i ins)) ≠ [] → exited (main i ins) = Some 0%Z).
Proof.
  destruct (main_run_cases i ins)
    as [(He & Hd & _) | [[He Hd] | (He & saved & Hd)]];
    rewrite He, Hd; simpl; split_and!; try done; lia.
Qed.

(** X4. The process never ends by itself: as long as the operator does
    not press q, whatever is delivered, it keeps running. *)
Theorem runs_until_quit (i : info) (ins : list input) :
  Forall no_quit ins → exited (main i ins) = None.
Proof.
  intros Hq.
  pose (P := λ p : process, well_formed (config (mem p)) ∧ exited p = None).
  assert (HP : P (main i ins)).
  { apply (run_invariant no_quit P); [| exact Hq |].
    - intros p inp Hn [Hwf He]. split; [by apply step_well_formed |].
      assert (Hio : ∀ k io, k ≠ ord_q → exited (step p (IterateIO k io)) = None).
      { intros k io Hk. rewrite step_iterate_io by assumption.
        destruct (iteration_cases k io (mem p) Hwf)
          as [[_ ->] | (a & cw & pct & v & s & _ & _ & _ & _ & _ & _ & _ & _
                        & [[_ ->] | [Hk' _]])]; simpl; done. }
      destruct inp as [m | op | k io].
      + by rewrite step_deliver.
      + rewrite step_iterate_op. by apply Hio.
      + by apply Hio.
    - split; [apply main_config_well_formed | reflexivity]. }
  exact (proj2 HP).
Qed.
(** An iteration in a well-formed state changes no slot of [config] but
    [img_rgb]. *)
Lemma loop_body_other_slots (op : operator) (w : world) (k : string) :
  well_formed (config w) → k ≠ "img_rgb" →
  config (state (main_loop_body op w)) !! k = config w !! k.
Proof.
  apply iteration_other_slots.
Qed.

(** X5. Every command the process ever publishes has the shape of lines
    168-173: linear = (v, 0, 0) and angular = (0, 0, s), with v and s an
    [int] or a [float]. *)
Theorem published_commands_planar (i : info) (ins : list input) :
  Forall planar (published (output (main i ins))).
Proof.
  pose (P := λ p : process,
          well_formed (config (mem p))
          ∧ Forall planar (published (output p))).
  assert (HP : P (main i ins)).
  { apply (run_invariant (λ _, True) P); [| apply Forall_any |].
    - intros p inp _ [Hwf Hall]. split; [by apply step_well_formed |].
      destruct (exited p) as [code |] eqn:He;
        [by rewrite (step_exited p inp code) |].
      assert (Hio : ∀ k io,
                 Forall planar (published (output (step p (IterateIO k io))))).
      { intros k io. rewrite step_iterate_io by assumption. simpl.
        rewrite published_app, Forall_app. split; [exact Hall |].
        destruct (iteration_published k io (mem p) Hwf)
          as (v & s & _ & Hv & _ & Hs & [-> | [-> | ->]]).
        - constructor.
        - repeat constructor. by exists v, s.
        - repeat constructor. exists (PyInt 0), (PyInt 0). by simpl. }
      destruct inp as [m | op | k io].
      + by rewrite step_deliver.
      + rewrite step_iterate_op. apply Hio.
      + apply Hio.
    - split; [apply main_config_well_formed | constructor]. }
  exact (proj2 HP).
Qed.

(** X6. Until the first message of the model topic, every command the
    process publishes is the zero command, whatever frames, signals and
    confidences arrive. *)
Theorem zero_commands_before_model_output (i : info) (ins : list input) :
  Forall no_model ins →
  Forall (λ t, t = command (PyInt 0) (PyInt 0))
         (published (output (main i ins))).
Proof.
  intros Hm.
  pose (P := λ p : process,
          well_formed (config (mem p))
          ∧ config (mem p) !! "velocity" = Some (PyInt 0)
          ∧ config (mem p) !! "steering" = Some (PyInt 0)
          ∧ Forall (λ t, t = command (PyInt 0) (PyInt 0))
                   (published (output p))).
  assert (HP : P (main i ins)).
  { apply (run_invariant no_model P); [| exact Hm |].
    - intros p inp Hn (Hwf & Hv & Hs & Hall).
      split; [by apply step_well_formed |].
      destruct (exited p) as [code |] eqn:He;
        [by rewrite (step_exited p inp code) |].
      assert (Hio : ∀ k io,
                 config (mem (step p (IterateIO k io))) !! "velocity"
                 = Some (PyInt 0)
                 ∧ config (mem (step p (IterateIO k io))) !! "steering"
                   = Some (PyInt 0)
                 ∧ Forall (λ t, t = command (PyInt 0) (PyInt 0))
                          (published (output (step p (IterateIO k io))))).
      { intros k io. rewrite step_iterate_io by assumption.
        cbn [mem output exited].
        rewrite !iteration_other_slots by done.
        split_and!; try done.
        rewrite published_app, Forall_app. split; [exact Hall |].
        destruct (iteration_published k io (mem p) Hwf)
          as (v & s & Hv' & _ & Hs' & _ & [-> | [-> | ->]]).
        - constructor.
        - rewrite Hv in Hv'. rewrite Hs in Hs'.
          injection Hv' as <-. injection Hs' as <-. by repeat constructor.
        - by repeat constructor. }
      destruct inp as [m | op | k io].
      + rewrite step_deliver by assumption. simpl.
        rewrite !callback_other_slots; [done | |];
          destruct m; simpl in *; try done;
          rewrite ?elem_of_union, !elem_of_singleton; intuition discriminate.
      + rewrite step_iterate_op. apply Hio.
      + apply Hio.
    - split; [apply main_config_well_formed |]. split_and!; done. }
  exact (proj2 (proj2 (proj2 HP))).
Qed.

(** X7. The process publishes at most one command per iteration of the
    loop; deliveries publish nothing. *)
Theorem one_command_per_iteration (i : info) (ins : list input) :
  length (published (output (main i ins)))
  ≤ length (List.filter is_iterate ins).
Proof.
  assert (Hgen : ∀ ins p,
             well_formed (config (mem p)) →
             length (published (output (run ins p)))
             ≤ length (published (output p))
               + length (List.filter is_iterate ins)).
  { clear ins. intros ins. induction ins as [| inp ins IH]; intros p Hwf.
    - simpl. lia.
    - rewrite run_cons.
      pose proof (IH (step p inp) (step_well_formed p inp Hwf)) as Hle.
      enough (length (published (output (step p inp)))
              + length (List.filter is_iterate ins)
              ≤ length (published (output p))
                + length (List.filter is_iterate (inp :: ins))) by lia.
      destruct (exited p) as [code |] eqn:He.
      { rewrite (step_exited p inp code He). simpl.
        destruct (is_iterate inp); simpl; lia. }
      assert (Hio : ∀ k io,
                 length (published (output (step p (IterateIO k io))))
                 ≤ length (published (output p)) + 1).
      { intros k io. rewrite step_iterate_io by assumption. simpl.
        rewrite published_app, length_app.
        destruct (iteration_published k io (mem p) Hwf)
          as (v & s & _ & _ & _ & _ & [-> | [-> | ->]]); simpl; lia. }
      destruct inp as [m | op | k io]; simpl.
      + rewrite step_deliver by assumption. simpl. lia.
      + rewrite step_iterate_op. pose proof (Hio (key op) (answers op)). lia.
      + pose proof (Hio k io). lia. }
  apply (Hgen ins (main_start i)), main_config_well_formed.
Qed.
(** A delivery never clears [begin_img]. *)
Lemma callback_keeps_active (m : message) (c : dict) :
  c !! "begin_img" = Some (PyBool true) →
  state (callback m c) !! "begin_img" = Some (PyBool true).
Proof.
  intros Hb. destruct m as [data | data | data | img].
  1-3: rewrite callback_other_slots; [exact Hb |]; simpl;
    rewrite ?elem_of_union, !elem_of_singleton; intuition discriminate.
  run_callback.
  destruct (c !! "bridge") as [b |]; simpl; [| exact Hb].
  destruct b; simpl; try exact Hb.
  destruct (imgmsg_to_cv2 img); simpl; [| exact Hb].
  apply lookup_insert_eq.
Qed.

(** X8. Once a frame has been decoded the loop stays active: nothing that
    is delivered or iterated afterwards clears [begin_img]. *)
Theorem active_forever (i : info) (ins more : list input) :
  config (mem (main i ins)) !! "begin_img" = Some (PyBool true) →
  config (mem (main i (ins ++ more))) !! "begin_img" = Some (PyBool true).
Proof.
  intros Hb.
  pose (P := λ p : process,
          well_formed (config (mem p))
          ∧ config (mem p) !! "begin_img" = Some (PyBool true)).
  assert (HP : P (run more (main i ins))).
  { apply (run_invariant (λ _, True) P); [| apply Forall_any |].
    - intros p inp _ [Hwf Hact]. split; [by apply step_well_formed |].
      destruct (exited p) as [code |] eqn:He;
        [by rewrite (step_exited p inp code) |].
      assert (Hio : ∀ k io,
                 config (mem (step p (IterateIO k io))) !! "begin_img"
                 = Some (PyBool true)).
      { intros k io. rewrite step_iterate_io by assumption. cbn [mem].
        by rewrite iteration_other_slots. }
      destruct inp as [m | op | k io].
      + rewrite step_deliver by assumption. by apply callback_keeps_active.
      + rewrite step_iterate_op. apply Hio.
      + apply Hio.
    - split; [apply main_well_formed | exact Hb]. }
  unfold main in *. rewrite run_app. exact (proj2 HP).
Qed.

(** X9. The first iteration after a decoded frame shows that frame with
    the overlay drawn on it and publishes the command of the velocity and
    steering slots. *)
Theorem frame_activates (i : info) (ins : list input) (img : Image)
    (a : ndarray) (op : operator) :
  exited (main i ins) = None →
  imgmsg_to_cv2 img = Some a →
  key op ≠ ord_q →
  ∃ pct v s,
    config (mem (main i ins)) !! "velocity" = Some v
    ∧ config (mem (main i ins)) !! "steering" = Some s
    ∧ events
        (main_loop_body op (mem (main i (ins ++ [Deliver (MsgFrame img)]))))
      = [EvImshow win_name (putText a (overlay pct)); EvWaitKey 1;
         EvPublish (command v s); EvRateSleep].
Proof.
  intros He Hd Hk.
  pose proof (main_well_formed i ins) as Hwf0.
  pose proof (main_well_formed i (ins ++ [Deliver (MsgFrame img)])) as Hwf.
  assert (Hc : config (mem (main i (ins ++ [Deliver (MsgFrame img)])))
               = <["begin_img":=PyBool true]>
                   (<["img_rgb":=PyArray a]> (config (mem (main i ins))))).
  { unfold main in *. rewrite run_app. simpl.
    rewrite step_deliver by assumption. simpl. run_callback.
    rewrite (wf_bridge _ Hwf0). simpl. by rewrite Hd. }
  destruct (loop_body_cases op _ Hwf)
    as [[Hb _] | (a' & cw & pct & v & s & _ & Ha & _ & _ & Hv & _ & Hs & _
                  & [[_ ->] | [Hq _]])]; [| | done].
  - rewrite Hc, lookup_insert_eq in Hb. discriminate.
  - rewrite Hc in Ha, Hv, Hs.
    rewrite lookup_insert_ne, lookup_insert_eq in Ha by done.
    rewrite !lookup_insert_ne in Hv, Hs by done.
    injection Ha as <-. exists pct, v, s. auto.
Qed.

(** X10. An iteration changes no slot of [config] but [img_rgb], and
    with a frame there it draws the overlay into the stored frame: the
    frame it shows is the frame it leaves in [img_rgb]. *)
Theorem iteration_draws_on_stored_frame (i : info) (ins : list input)
    (op : operator) :
  (∀ k, k ≠ "img_rgb" →
     config (state (main_loop_body op (mem (main i ins)))) !! k
     = config (mem (main i ins)) !! k)
  ∧ (∀ a,
       config (mem (main i ins)) !! "begin_img" = Some (PyBool true) →
       config (mem (main i ins)) !! "img_rgb" = Some (PyArray a) →
       ∃ pct,
         displayed (events (main_loop_body op (mem (main i ins))))
         = [putText a (overlay pct)]
         ∧ config (state (main_loop_body op (mem (main i ins)))) !! "img_rgb"
           = Some (PyArray (putText a (overlay pct)))).
Proof.
  pose proof (main_well_formed i ins) as Hwf. split.
  - intros k Hk. by apply loop_body_other_slots.
  - intros a Hb Ha.
    destruct (loop_body_cases op _ Hwf)
      as [[Hb' _] | (a' & cw & pct & v & s & _ & Ha' & _ & _ & _ & _ & _ & _
                    & [[_ ->] | [_ ->]])].
    + rewrite Hb in Hb'. discriminate.
    + rewrite Ha in Ha'. injection Ha' as <-. exists pct. simpl.
      by rewrite lookup_insert_eq.
    + rewrite Ha in Ha'. injection Ha' as <-. exists pct. simpl.
      by rewrite lookup_insert_eq.
Qed.

(** X11. The steering and the velocity of a model output stay in their
    slots until the next message of the model topic, whatever else is
    delivered and however often the loop iterates. *)
Theorem model_output_kept (i : info) (ins more : list input)
    (payload : string) (sf vf : float) :
  exited (main i ins) = None →
  payload_field payload "steering" = Ok sf →
  payload_field payload "velocity" = Ok vf →
  Forall no_model more →
  config (mem (main i (ins ++ Deliver (MsgModel payload) :: more)))
    !! "steering" = Some (PyFloat sf)
  ∧ config (mem (main i (ins ++ Deliver (MsgModel payload) :: more)))
      !! "velocity" = Some (PyFloat vf).
Proof.
  intros He Hs Hv Hmore.
  pose (P := λ p : process,
          well_formed (config (mem p))
          ∧ config (mem p) !! "steering" = Some (PyFloat sf)
          ∧ config (mem p) !! "velocity" = Some (PyFloat vf)).
  assert (HP : P (run more (step (main i ins) (Deliver (MsgModel payload))))).
  { apply (run_invariant no_model P); [| exact Hmore |].
    - intros p inp Hn (Hwf & Hsp & Hvp).
      split; [by apply step_well_formed |].
      destruct (exited p) as [code |] eqn:Hep;
        [by rewrite (step_exited p inp code) |].
      assert (Hio : ∀ k io,
                 config (mem (step p (IterateIO k io))) !! "steering"
                 = Some (PyFloat sf)
                 ∧ config (mem (step p (IterateIO k io))) !! "velocity"
                   = Some (PyFloat vf)).
      { intros k io. rewrite step_iterate_io by assumption. cbn [mem].
        by rewrite !iteration_other_slots. }
      destruct inp as [m | op | k io].
      + rewrite step_deliver by assumption. simpl.
        rewrite !callback_other_slots; [done | |];
          destruct m; simpl in *; try done;
          rewrite ?elem_of_union, !elem_of_singleton; intuition discriminate.
      + rewrite step_iterate_op. apply Hio.
      + apply Hio.
    - split; [apply step_well_formed, main_well_formed |].
      rewrite step_deliver by assumption. simpl.
      rewrite (model_callback_stores payload _ sf vf) by assumption. simpl.
      split; [by rewrite lookup_insert_ne, lookup_insert_eq |
              by rewrite lookup_insert_eq]. }
  unfold main in *. rewrite run_app, run_cons. exact (proj2 HP).
Qed.
End Traces.

(** ** Deliveries *)

Section Deliveries.
Context `{Platform}.

Abbreviation value := (pyval ndarray).
Abbreviation dict := (gmap string value).

(** The [config] a callback of the camera topic leaves. *)
Lemma frame_callback_state (img : Image) (c : dict) :
  state (imgRgbCallback img c) =
    match c !! "bridge", imgmsg_to_cv2 img with
    | Some PyBridge, Some a =>
        <["begin_img":=PyBool true]> (<["img_rgb":=PyArray a]> c)
    | _, _ => c
    end.
Proof.
  run_callback.
  destruct (c !! "bridge") as [b |]; simpl; [| reflexivity].
  destruct b; simpl; try reflexivity.
  destruct (imgmsg_to_cv2 img); reflexivity.
Qed.

(** The [config] a callback of the model topic leaves. *)
Lemma model_callback_state (payload : string) (c : dict) :
  state (modelSteeringVelocityCallback payload c) =
    match payload_field payload "steering", payload_field payload "velocity" with
    | Ok sf, Ok vf =>
        <["velocity":=PyFloat vf]> (<["steering":=PyFloat sf]> c)
    | Ok sf, Raise _ => <["steering":=PyFloat sf]> c
    | Raise _, _ => c
    end.
Proof.
  rewrite model_callback_cases.
  destruct (payload_field payload "steering"); [| reflexivity].
  destruct (payload_field payload "velocity"); reflexivity.
Qed.

Ltac callback_states Hbr :=
  unfold callback, signalCallback, crosswalkSurenessCallback, setitem;
  cbn [state];
  rewrite ?model_callback_state, ?frame_callback_state;
  rewrite ?lookup_insert_ne by done;
  rewrite ?Hbr.

Ltac decode_cases :=
  repeat match goal with
         | |- context [payload_field ?p ?k] => destruct (payload_field p k)
         | |- context [imgmsg_to_cv2 ?x] => destruct (imgmsg_to_cv2 x)
         end.

(** X12. Messages of different topics can be delivered in either order:
    the callbacks own different slots, so [config] ends up the same. *)
Theorem deliveries_commute (m1 m2 : message) (c : dict) :
  owned m1 ## owned m2 →
  state (callback m2 (state (callback m1 c)))
  = state (callback m1 (state (callback m2 c))).
Proof.
  intros Hd.
  destruct (c !! "bridge") as [b |] eqn:Hbr; [destruct b |];
    destruct m1 as [d1 | d1 | d1 | d1], m2 as [d2 | d2 | d2 | d2];
    simpl in Hd; try (exfalso; set_solver);
    callback_states Hbr; decode_cases; callback_states Hbr;
    try reflexivity; same_inserts.
Qed.

(** X13. A message delivered twice in a row leaves [config] as the first
    delivery left it. *)
Theorem redelivery_changes_nothing (m : message) (c : dict) :
  state (callback m (state (callback m c))) = state (callback m c).
Proof.
  destruct (c !! "bridge") as [b |] eqn:Hbr; [destruct b |];
    destruct m as [d | d | d | d];
    callback_states Hbr; decode_cases; callback_states Hbr;
    try reflexivity; same_inserts.
Qed.
End Deliveries.

(** ** What the signal and the crosswalk confidence can change *)

Section Perception.
Context `{Platform}.

Abbreviation value := (pyval ndarray).
Abbreviation dict := (gmap string value).

Lemma without_cons (kind : input → bool) (i : input) (ins : list input) :
  without kind (i :: ins)
  = if kind i then without kind ins else i :: without kind ins.
Proof. unfold without. simpl. by destruct (kind i). Qed.

(** Two dicts that are the same without the [signal] slot have the same
    other slots. *)
Lemma same_but_signal (c c' : dict) (k : string) :
  delete "signal" c = delete "signal" c' → k ≠ "signal" → c !! k = c' !! k.
Proof.
  intros Hd Hk.
  rewrite <- (lookup_delete_ne c "signal" k), <- (lookup_delete_ne c' "signal" k)
    by done.
  by rewrite Hd.
Qed.

Lemma same_but_signal_insert (c c' : dict) (k : string) (v : value) :
  delete "signal" c = delete "signal" c' → k ≠ "signal" →
  delete "signal" (<[k:=v]> c) = delete "signal" (<[k:=v]> c').
Proof. intros Hd Hk. rewrite !delete_insert_ne by done. by rewrite Hd. Qed.

(** A callback of another topic does not look at the [signal] slot. *)
Lemma callback_signal_blind (m : message) (c c' : dict) :
  is_signal (Deliver m) = false →
  delete "signal" c = delete "signal" c' →
  delete "signal" (state (callback m c))
  = delete "signal" (state (callback m c')).
Proof.
  intros Hm Hd.
  pose proof (same_but_signal c c' "bridge" Hd) as Hbr.
  destruct m as [d | d | d | d]; [discriminate | | |]; simpl.
  - by apply same_but_signal_insert.
  - rewrite !model_callback_state.
    destruct (payload_field d "steering"); [| exact Hd].
    destruct (payload_field d "velocity");
      repeat apply same_but_signal_insert; done.
  - rewrite !frame_callback_state, <- Hbr by done.
    destruct (c !! "bridge") as [[] |]; try exact Hd.
    destruct (imgmsg_to_cv2 d); [| exact Hd].
    repeat apply same_but_signal_insert; done.
Qed.

(** Neither does an iteration. *)
Lemma iteration_signal_blind (k : Z) (io : shutdown_io) (w w' : world) :
  well_formed (config w) →
  delete "signal" (config w) = delete "signal" (config w') →
  twist w = twist w' → info_loaded w = info_loaded w' →
  events (main_iteration k io w) = events (main_iteration k io w')
  ∧ res (main_iteration k io w) = res (main_iteration k io w')
  ∧ twist (state (main_iteration k io w))
    = twist (state (main_iteration k io w'))
  ∧ info_loaded (state (main_iteration k io w))
    = info_loaded (state (main_iteration k io w'))
  ∧ delete "signal" (config (state (main_iteration k io w)))
    = delete "signal" (config (state (main_iteration k io w'))).
Proof.
  intros Hwf Hd Ht Hi.
  assert (Hsame : ∀ slot, slot ≠ "signal" →
                     config w !! slot = config w' !! slot)
    by (intros slot Hslot; by apply same_but_signal).
  destruct (iteration_cases k io w Hwf)
    as [[Hb ->] | (a & cw & pct & v & s & Hb & Ha & Hc & Hp & Hv & _ & Hs & _
                  & [[Hk ->] | [Hk ->]])].
  - rewrite (iteration_idle k io w') by (by rewrite <- Hsame). auto.
  - rewrite (iteration_drive k io w' a cw pct v s) by (by rewrite <- ?Hsame).
    simpl. rewrite Hi. split_and!; try done.
    by apply same_but_signal_insert.
  - rewrite (iteration_quit k io w' a cw pct v s) by (by rewrite <- ?Hsame).
    simpl. rewrite Hi. split_and!; try done.
    by apply same_but_signal_insert.
Qed.

(** X14. The messages of the signal topic change nothing but the
    [signal] slot: without them the process has the same output, the same
    exit status, the same Twist and model record, and the same other
    slots. *)
Theorem signals_change_nothing (i : info) (ins : list input) :
  output (main i (without is_signal ins)) = output (main i ins)
  ∧ exited (main i (without is_signal ins)) = exited (main i ins)
  ∧ twist (mem (main i (without is_signal ins))) = twist (mem (main i ins))
  ∧ info_loaded (mem (main i (without is_signal ins)))
    = info_loaded (mem (main i ins))
  ∧ (∀ k, k ≠ "signal" →
       config (mem (main i (without is_signal ins))) !! k
       = config (mem (main i ins)) !! k).
Proof.
  pose (R := λ p p' : process,
          well_formed (config (mem p))
          ∧ output p = output p' ∧ exited p = exited p'
          ∧ twist (mem p) = twist (mem p')
          ∧ info_loaded (mem p) = info_loaded (mem p')
          ∧ delete "signal" (config (mem p))
            = delete "signal" (config (mem p'))).
  assert (Hgen : ∀ ins p p', R p p' →
                   R (run (without is_signal ins) p) (run ins p')).
  { clear ins. intros ins. induction ins as [| inp ins IH]; intros p p' HR;
      [exact HR |].
    rewrite run_cons, without_cons.
    destruct HR as (Hwf & Ho & He & Ht & Hi & Hd).
    destruct (is_signal inp) eqn:Hsig.
    - apply IH. destruct inp as [[d | | |] | |]; try discriminate.
      destruct (exited p') as [code |] eqn:He';
        [rewrite (step_exited p' _ code He'); by rewrite <- He' in He |].
      rewrite step_deliver by assumption. simpl.
      split_and!; try done.
      unfold signalCallback, setitem. simpl. by rewrite delete_insert_eq.
    - rewrite run_cons. apply IH.
      split; [by apply step_well_formed |].
      destruct (exited p') as [code |] eqn:He'.
      { rewrite (step_exited p inp code He), (step_exited p' inp code He').
        rewrite He, He'. auto. }
      destruct inp as [m | op | k io]; [| rewrite !step_iterate_op |].
      + rewrite !step_deliver by assumption. simpl.
        split_and!; try done. by apply callback_signal_blind.
      + rewrite !step_iterate_io by assumption. simpl.
        destruct (iteration_signal_blind (key op) (answers op) (mem p) (mem p')
                    Hwf Hd Ht Hi) as (-> & -> & Ht' & Hi' & Hd').
        rewrite Ho. auto.
      + rewrite !step_iterate_io by assumption. simpl.
        destruct (iteration_signal_blind k io (mem p) (mem p') Hwf Hd Ht Hi)
          as (-> & -> & Ht' & Hi' & Hd').
        rewrite Ho. auto. }
  destruct (Hgen ins (main_start i) (main_start i))
    as (_ & Ho & He & Ht & Hi & Hd).
  { split; [apply main_config_well_formed |]. auto. }
  split_and!; try done.
  intros k Hk. by apply same_but_signal.
Qed.
(** A callback of the model or the camera topic treats two dicts with the
    same bridge alike, slot by slot. *)
Lemma callback_same_slot (m : message) (c c' : dict) (k : string) :
  is_perception (Deliver m) = false →
  c !! "bridge" = c' !! "bridge" →
  c !! k = c' !! k →
  state (callback m c) !! k = state (callback m c') !! k.
Proof.
  intros Hm Hbr Hk.
  destruct m as [d | d | d | d]; try discriminate; simpl.
  - rewrite !model_callback_state.
    destruct (payload_field d "steering"); [| exact Hk].
    destruct (payload_field d "velocity");
      rewrite !lookup_insert; repeat case_decide; done.
  - rewrite !frame_callback_state, <- Hbr.
    destruct (c !! "bridge") as [[] |]; try exact Hk.
    destruct (imgmsg_to_cv2 d); [| exact Hk].
    rewrite !lookup_insert; repeat case_decide; done.
Qed.

(** What an iteration publishes, writes and returns depends on no slot
    but [begin_img], [velocity] and [steering]. *)
Lemma iteration_perception_blind (k : Z) (io : shutdown_io) (w w' : world) :
  well_formed (config w) → well_formed (config w') →
  config w !! "begin_img" = config w' !! "begin_img" →
  config w !! "velocity" = config w' !! "velocity" →
  config w !! "steering" = config w' !! "steering" →
  info_loaded w = info_loaded w' →
  published (events (main_iteration k io w))
  = published (events (main_iteration k io w'))
  ∧ dumped (events (main_iteration k io w))
    = dumped (events (main_iteration k io w'))
  ∧ res (main_iteration k io w) = res (main_iteration k io w')
  ∧ info_loaded (state (main_iteration k io w))
    = info_loaded (state (main_iteration k io w')).
Proof.
  intros Hwf Hwf' Hb Hv Hs Hi.
  destruct (iteration_cases k io w Hwf)
    as [[Hb1 ->] | (a & cw & pct & v & s & Hb1 & _ & _ & _ & Hv1 & _ & Hs1 & _
                   & [[Hk ->] | [Hk ->]])];
    destruct (iteration_cases k io w' Hwf')
      as [[Hb2 ->] | (a' & cw' & pct' & v' & s' & Hb2 & _ & _ & _ & Hv2 & _
                      & Hs2 & _ & [[Hk' ->] | [Hk' ->]])];
    try congruence; simpl.
  - auto.
  - assert (v = v') by congruence. assert (s = s') by congruence.
    subst. auto.
  - rewrite Hi. auto.
Qed.

(** X15. The messages of the signal and of the crosswalk topic change
    neither the commands the process publishes, nor what it writes to the
    model file, nor whether and how it exits: without them all three are the
    same. *)
Theorem published_trace_ignores_perception (i : info) (ins : list input) :
  published (output (main i (without is_perception ins)))
  = published (output (main i ins))
  ∧ dumped (output (main i (without is_perception ins)))
    = dumped (output (main i ins))
  ∧ exited (main i (without is_perception ins)) = exited (main i ins).
Proof.
  pose (agree := λ c c' : dict,
          ∀ k, k ≠ "signal" → k ≠ "crosswalk" → k ≠ "img_rgb" →
               c !! k = c' !! k).
  pose (R := λ p p' : process,
          well_formed (config (mem p)) ∧ well_formed (config (mem p'))
          ∧ published (output p) = published (output p')
          ∧ dumped (output p) = dumped (output p')
          ∧ exited p = exited p'
          ∧ info_loaded (mem p) = info_loaded (mem p')
          ∧ agree (config (mem p)) (config (mem p'))).
  assert (Hgen : ∀ ins p p', R p p' →
                   R (run (without is_perception ins) p) (run ins p')).
  { clear ins. intros ins. induction ins as [| inp ins IH]; intros p p' HR;
      [exact HR |].
    rewrite run_cons, without_cons.
    destruct HR as (Hwf & Hwf' & Ho & Hd & He & Hi & Ha).
    destruct (exited p') as [code |] eqn:He'.
    { rewrite (step_exited p' inp code He').
      destruct (is_perception inp);
        [| rewrite run_cons, (step_exited p inp code He)];
        apply IH; unfold R; rewrite ?He'; auto 10. }
    destruct (is_perception inp) eqn:Hper.
    - apply IH. destruct inp as [m | |]; [| discriminate | discriminate].
      rewrite step_deliver by assumption.
      split_and!; try done; simpl.
      + by apply callback_well_formed.
      + intros k Hk1 Hk2 Hk3. rewrite callback_other_slots; [by apply Ha |].
        destruct m; try discriminate; simpl;
          rewrite elem_of_singleton; congruence.
    - rewrite run_cons. apply IH.
      split; [by apply step_well_formed |].
      split; [by apply step_well_formed |].
      assert (Hio : ∀ key io,
                 published (output (step p (IterateIO key io)))
                 = published (output (step p' (IterateIO key io)))
                 ∧ dumped (output (step p (IterateIO key io)))
                   = dumped (output (step p' (IterateIO key io)))
                 ∧ exited (step p (IterateIO key io))
                   = exited (step p' (IterateIO key io))
                 ∧ info_loaded (mem (step p (IterateIO key io)))
                   = info_loaded (mem (step p' (IterateIO key io)))
                 ∧ agree (config (mem (step p (IterateIO key io))))
                         (config (mem (step p' (IterateIO key io))))).
      { intros key io. rewrite !step_iterate_io by assumption. simpl.
        destruct (iteration_perception_blind key io (mem p) (mem p'))
          as (Hpub & Hdump & -> & Hinfo); auto.
        rewrite !published_app, !dumped_app, Ho, Hd, Hpub, Hdump.
        split_and!; try done.
        intros k Hk1 Hk2 Hk3.
        rewrite !iteration_other_slots by done. by apply Ha. }
      destruct inp as [m | op | key io].
      + rewrite !step_deliver by assumption. simpl.
        split_and!; try done.
        intros k Hk1 Hk2 Hk3. apply callback_same_slot; auto.
      + rewrite !step_iterate_op. apply Hio.
      + apply Hio. }
  destruct (Hgen ins (main_start i) (main_start i)) as (_ & _ & Ho & Hd & He & _).
  { unfold R, agree. split_and!; auto using main_config_well_formed. }
  auto.
Qed.
End Perception.

(** ** Sessions *)

Section Sessions.
Context `{Platform}.

Abbreviation value := (pyval ndarray).
Abbreviation dict := (gmap string value).

(** The entry a text has been recorded under. *)
Lemma record_feedback_lookup (k text : string) (m : gmap string string) :
  record_feedback k text m !! k
  = Some (match m !! k with
          | None => text
          | Some old => old +:+ "; " +:+ text
          end).
Proof. unfold record_feedback. destruct (m !! k); apply lookup_insert_eq. Qed.

(** What the model file holds after the operator has quit a running
    process with a frame there: the record that was loaded, with the
    feedback of that operator. *)
Lemma quit_writes_loaded_record (i : info) (ins : list input)
    (op : operator) :
  exited (main i ins) = None →
  config (mem (main i ins)) !! "begin_img" = Some (PyBool true) →
  key op = ord_q →
  dumped (output (main i (ins ++ [Iterate op]))) = [with_feedback op i].
Proof.
  intros He Hb Hk.
  destruct (main_run_cases i ins) as [(_ & Hd & Hi) | [[He' _] | [He' _]]];
    [| congruence | congruence].
  destruct (quit_events op _ (main_well_formed i ins) Hb Hk)
    as (a & Hev & _ & _).
  unfold main in *. rewrite run_app. simpl.
  rewrite step_iterate by assumption. simpl.
  by rewrite dumped_app, Hd, Hev, Hi.
Qed.

(** X16. Feedback accumulates over sessions.  A first session ends with
    the operator [op1] quitting and writes a record; a second process loads
    a record with the feedback entries as written, and its operator [op2]
    quits.  Then each feedback entry of the record the second session
    writes holds the text from before the first session, if there was one,
    then the text of [op1], then the text of [op2], separated by a semicolon
    and a blank. *)
Theorem feedback_accumulates (i s1 i2 : info) (ins1 ins2 : list input)
    (op1 op2 : operator) :
  exited (main i ins1) = None →
  config (mem (main i ins1)) !! "begin_img" = Some (PyBool true) →
  key op1 = ord_q →
  dumped (output (main i (ins1 ++ [Iterate op1]))) = [s1] →
  model i2 !! "driving_comments" = model s1 !! "driving_comments" →
  model i2 !! "driving_model_eval" = model s1 !! "driving_model_eval" →
  exited (main i2 ins2) = None →
  config (mem (main i2 ins2)) !! "begin_img" = Some (PyBool true) →
  key op2 = ord_q →
  ∃ s2,
    dumped (output (main i2 (ins2 ++ [Iterate op2]))) = [s2]
    ∧ model s2 !! "driving_comments"
      = Some (match model i !! "driving_comments" with
              | None => comments op1
              | Some old => old +:+ "; " +:+ comments op1
              end +:+ "; " +:+ comments op2)
    ∧ model s2 !! "driving_model_eval"
      = Some (match model i !! "driving_model_eval" with
              | None => rating op1 +:+ "/10"
              | Some old => old +:+ "; " +:+ (rating op1 +:+ "/10")
              end +:+ "; " +:+ (rating op2 +:+ "/10")).
Proof.
  intros He1 Hb1 Hk1 Hs1 Hc He Hr2 Hb2 Hk2.
  rewrite (quit_writes_loaded_record i ins1 op1) in Hs1 by assumption.
  injection Hs1 as <-.
  exists (with_feedback op2 i2).
  split; [by apply quit_writes_loaded_record |].
  unfold with_feedback in *. simpl in *. split.
  - rewrite record_feedback_other by done.
    rewrite record_feedback_lookup, Hc.
    rewrite record_feedback_other by done.
    by rewrite record_feedback_lookup.
  - rewrite record_feedback_lookup.
    rewrite record_feedback_other by done.
    rewrite He, record_feedback_lookup.
    by rewrite record_feedback_other.
Qed.

End Sessions.

(** ** The window *)

Section Display.
Context `{Platform}.

Abbreviation value := (pyval ndarray).
Abbreviation dict := (gmap string value).

(** X17. The overlay is drawn into the stored frame itself, so without a
    new frame the next iteration draws on the frame that already carries
    it: the overlays pile up. *)
Theorem overlays_pile_up (i : info) (ins : list input) (op op' : operator)
    (a : ndarray) (cw pct : value) :
  config (mem (main i ins)) !! "begin_img" = Some (PyBool true) →
  config (mem (main i ins)) !! "img_rgb" = Some (PyArray a) →
  config (mem (main i ins)) !! "crosswalk" = Some cw →
  percentage cw = Ok pct →
  key op ≠ ord_q →
  displayed (events (main_loop_body op (mem (main i ins))))
  = [putText a (overlay pct)]
  ∧ displayed
      (events
         (main_loop_body op' (state (main_loop_body op (mem (main i ins))))))
    = [putText (putText a (overlay pct)) (overlay pct)].
Proof.
  intros Hb Ha Hc Hp Hk.
  pose proof (main_well_formed i ins) as Hwf.
  pose proof (loop_body_well_formed op _ Hwf) as Hwf'.
  destruct (wf_velocity _ Hwf) as (v & Hv & _).
  destruct (wf_steering _ Hwf) as (s & Hs & _).
  revert Hwf'.
  rewrite (loop_body_drive op _ a cw pct v s) by assumption.
  cbn [state events]. intros Hwf'. split; [reflexivity |].
  destruct (loop_body_cases op' _ Hwf')
    as [[Hb' _] | (a' & cw' & pct' & v' & s' & _ & Ha' & Hc' & Hp' & _ & _ & _
                  & _ & [[_ ->] | [_ ->]])]; simpl in *.
  - rewrite lookup_insert_ne, Hb in Hb' by done. discriminate.
  - rewrite lookup_insert_eq in Ha'. rewrite lookup_insert_ne, Hc in Hc' by done.
    injection Ha' as <-. injection Hc' as <-.
    rewrite Hp in Hp'. by injection Hp' as <-.
  - rewrite lookup_insert_eq in Ha'. rewrite lookup_insert_ne, Hc in Hc' by done.
    injection Ha' as <-. injection Hc' as <-.
    rewrite Hp in Hp'. by injection Hp' as <-.
Qed.

(** X18. Before the first decoded frame the loop does nothing at all: it
    does not poll the key, so q is not seen, and it does not sleep at its
    rate. *)
Theorem idle_loop_is_silent (i : info) (ins : list input) :
  Forall no_frame ins → output (main i ins) = [].
Proof.
  intros Hins.
  destruct (idle_run ins (main_start i) Hins) as (Ho & _ & _);
    [reflexivity | reflexivity |].
  exact Ho.
Qed.
End Display.

(** ** The script on concrete schedules *)

Section Runs.
#[local] Existing Instance Sim.platform.

(** The schedule [Sim.blind]: iterations, an undecodable frame, a model
    output, a signal, even the abort key. *)
Lemma idle_before_first_frame_witness :
  Forall no_frame Sim.blind
  ∧ published (output (main Sim.model_file Sim.blind)) = []
  ∧ displayed (output (main Sim.model_file Sim.blind)) = []
  ∧ exited (main Sim.model_file Sim.blind) = None.
Proof.
  assert (Hblind : Forall no_frame Sim.blind)
    by (repeat constructor; reflexivity).
  split; [exact Hblind |].
  apply (idle_before_first_frame Sim.model_file Sim.blind Hblind).
Defined.

(** After the model output (0.125, 0.5) the command is (0.5, 0, 0),
    (0, 0, 0.125). *)
Lemma pass_through_command_witness :
  config Sim.stop_state !! "begin_img" = Some (PyBool true)
  ∧ config Sim.stop_state !! "velocity" = Some (PyFloat 0.5)
  ∧ config Sim.stop_state !! "steering" = Some (PyFloat 0.125)
  ∧ key Sim.no_key ≠ ord_q
  ∧ published (events (main_loop_body Sim.no_key Sim.stop_state))
    = [mkTwist (mkVector3 (PyFloat 0.5) (PyInt 0) (PyInt 0))
               (mkVector3 (PyInt 0) (PyInt 0) (PyFloat 0.125))]
  ∧ res (main_loop_body Sim.no_key Sim.stop_state) = Ok tt.
Proof.
  assert (Hb : config Sim.stop_state !! "begin_img" = Some (PyBool true))
    by by_evaluation.
  assert (Hv : config Sim.stop_state !! "velocity" = Some (PyFloat 0.5))
    by by_evaluation.
  assert (Hs : config Sim.stop_state !! "steering" = Some (PyFloat 0.125))
    by by_evaluation.
  assert (Hk : key Sim.no_key ≠ ord_q) by by_evaluation.
  split_and!; try assumption;
    apply (pass_through_command Sim.model_file
             (Sim.warm_up ++ [Deliver (MsgSignal "StopPermitted")])
             Sim.no_key (PyFloat 0.5) (PyFloat 0.125) Hb Hv Hs Hk).
Defined.

(** Two states with the same velocity and steering and different signal
    and crosswalk slots. *)
Lemma command_ignores_perception_witness :
  config Sim.stop_state !! "begin_img" = Some (PyBool true)
  ∧ config (mem (main Sim.model_file Sim.quiet)) !! "begin_img"
    = Some (PyBool true)
  ∧ config Sim.stop_state !! "velocity"
    = config (mem (main Sim.model_file Sim.quiet)) !! "velocity"
  ∧ config Sim.stop_state !! "steering"
    = config (mem (main Sim.model_file Sim.quiet)) !! "steering"
  ∧ config Sim.stop_state !! "signal"
    ≠ config (mem (main Sim.model_file Sim.quiet)) !! "signal"
  ∧ config Sim.stop_state !! "crosswalk"
    ≠ config (mem (main Sim.model_file Sim.quiet)) !! "crosswalk"
  ∧ key Sim.no_key ≠ ord_q
  ∧ published (events (main_loop_body Sim.no_key Sim.stop_state))
    = published
        (events (main_loop_body Sim.no_key
                   (mem (main Sim.model_file Sim.quiet)))).
Proof.
  assert (Hb1 : config Sim.stop_state !! "begin_img" = Some (PyBool true))
    by by_evaluation.
  assert (Hb2 : config (mem (main Sim.model_file Sim.quiet)) !! "begin_img"
                = Some (PyBool true)) by by_evaluation.
  assert (Hv : config Sim.stop_state !! "velocity"
               = config (mem (main Sim.model_file Sim.quiet)) !! "velocity")
    by by_evaluation.
  assert (Hs : config Sim.stop_state !! "steering"
               = config (mem (main Sim.model_file Sim.quiet)) !! "steering")
    by by_evaluation.
  assert (Hk : key Sim.no_key ≠ ord_q) by by_evaluation.
  assert (Hg : config Sim.stop_state !! "signal"
               ≠ config (mem (main Sim.model_file Sim.quiet)) !! "signal")
    by by_evaluation.
  assert (Hc : config Sim.stop_state !! "crosswalk"
               ≠ config (mem (main Sim.model_file Sim.quiet)) !! "crosswalk")
    by by_evaluation.
  split_and!; try assumption.
  apply (command_ignores_perception Sim.model_file Sim.model_file
           (Sim.warm_up ++ [Deliver (MsgSignal "StopPermitted")]) Sim.quiet
           Sim.no_key Hb1 Hb2 Hv Hs Hk).
Defined.

(** C1 fails on the script: after a frame, the model output (0.125, 0.5),
    the confidence 0.9 and the signal StopPermitted, an iteration without
    the abort key never sleeps and publishes the velocity 0.5. *)
Lemma stop_signal_counterexample :
  config Sim.stop_state !! "begin_img" = Some (PyBool true)
  ∧ config Sim.stop_state !! "signal" = Some (PyStr "StopPermitted")
  ∧ config Sim.stop_state !! "crosswalk" = Some (PyFloat Sim.confidence)
  ∧ PrimFloat.ltb crosswalk_threshold Sim.confidence = true
  ∧ key Sim.no_key ≠ ord_q
  ∧ slept (events (main_loop_body Sim.no_key Sim.stop_state)) = []
  ∧ published (events (main_loop_body Sim.no_key Sim.stop_state))
    = [command (PyFloat 0.5) (PyFloat 0.125)]
  ∧ is_zero (PyFloat 0.5) = false.
Proof. split_and!; by_evaluation. Qed.

(** The amended C1 on the same state. *)
Lemma stop_signal_passes_through_witness :
  config Sim.stop_state !! "begin_img" = Some (PyBool true)
  ∧ config Sim.stop_state !! "signal" = Some (PyStr "StopPermitted")
  ∧ config Sim.stop_state !! "crosswalk" = Some (PyFloat Sim.confidence)
  ∧ PrimFloat.ltb crosswalk_threshold Sim.confidence = true
  ∧ config Sim.stop_state !! "velocity" = Some (PyFloat 0.5)
  ∧ config Sim.stop_state !! "steering" = Some (PyFloat 0.125)
  ∧ key Sim.no_key ≠ ord_q
  ∧ slept (events (main_loop_body Sim.no_key Sim.stop_state)) = []
  ∧ published (events (main_loop_body Sim.no_key Sim.stop_state))
    = [command (PyFloat 0.5) (PyFloat 0.125)]
  ∧ res (main_loop_body Sim.no_key Sim.stop_state) = Ok tt.
Proof.
  assert (Hb : config Sim.stop_state !! "begin_img" = Some (PyBool true))
    by by_evaluation.
  assert (Hg : config Sim.stop_state !! "signal"
               = Some (PyStr "StopPermitted")) by by_evaluation.
  assert (Hc : config Sim.stop_state !! "crosswalk"
               = Some (PyFloat Sim.confidence)) by by_evaluation.
  assert (Ht : PrimFloat.ltb crosswalk_threshold Sim.confidence = true)
    by by_evaluation.
  assert (Hv : config Sim.stop_state !! "velocity" = Some (PyFloat 0.5))
    by by_evaluation.
  assert (Hs : config Sim.stop_state !! "steering" = Some (PyFloat 0.125))
    by by_evaluation.
  assert (Hk : key Sim.no_key ≠ ord_q) by by_evaluation.
  split_and!; try assumption;
    apply (stop_signal_passes_through Sim.model_file
             (Sim.warm_up ++ [Deliver (MsgSignal "StopPermitted")])
             Sim.no_key Sim.confidence (PyFloat 0.5) (PyFloat 0.125)
             Hb Hg Hc Ht Hv Hs Hk).
Defined.

(** C2 fails on the script: with the signal ChessboardMarker the iteration
    never sleeps, publishes the velocity 0.5 and the steering 0.125, returns
    without [exit], and the next iteration publishes again. *)
Lemma chessboard_signal_counterexample :
  config Sim.chess_state !! "begin_img" = Some (PyBool true)
  ∧ config Sim.chess_state !! "signal" = Some (PyStr "ChessboardMarker")
  ∧ config Sim.chess_state !! "crosswalk" = Some (PyFloat Sim.confidence)
  ∧ PrimFloat.ltb crosswalk_threshold Sim.confidence = true
  ∧ key Sim.no_key ≠ ord_q
  ∧ slept (events (main_loop_body Sim.no_key Sim.chess_state)) = []
  ∧ published (events (main_loop_body Sim.no_key Sim.chess_state))
    = [command (PyFloat 0.5) (PyFloat 0.125)]
  ∧ is_zero (PyFloat 0.5) = false
  ∧ is_zero (PyFloat 0.125) = false
  ∧ res (main_loop_body Sim.no_key Sim.chess_state) = Ok tt
  ∧ published
      (output
         (main Sim.model_file
            (Sim.warm_up
             ++ [Deliver (MsgSignal "ChessboardMarker"); Iterate Sim.no_key;
                 Iterate Sim.no_key])))
    = [command (PyFloat 0.5) (PyFloat 0.125);
       command (PyFloat 0.5) (PyFloat 0.125)]
  ∧ exited
      (main Sim.model_file
         (Sim.warm_up
          ++ [Deliver (MsgSignal "ChessboardMarker"); Iterate Sim.no_key;
              Iterate Sim.no_key]))
    = None.
Proof. split_and!; by_evaluation. Qed.

(** The amended C2 on the same state. *)
Lemma chessboard_signal_passes_through_witness :
  exited (Sim.after_signal "ChessboardMarker") = None
  ∧ config Sim.chess_state !! "begin_img" = Some (PyBool true)
  ∧ config Sim.chess_state !! "signal" = Some (PyStr "ChessboardMarker")
  ∧ config Sim.chess_state !! "crosswalk" = Some (PyFloat Sim.confidence)
  ∧ PrimFloat.ltb crosswalk_threshold Sim.confidence = true
  ∧ config Sim.chess_state !! "velocity" = Some (PyFloat 0.5)
  ∧ config Sim.chess_state !! "steering" = Some (PyFloat 0.125)
  ∧ key Sim.no_key ≠ ord_q
  ∧ slept (events (main_loop_body Sim.no_key Sim.chess_state)) = []
  ∧ published (events (main_loop_body Sim.no_key Sim.chess_state))
    = [command (PyFloat 0.5) (PyFloat 0.125)]
  ∧ exited
      (main Sim.model_file
         ((Sim.warm_up ++ [Deliver (MsgSignal "ChessboardMarker")])
          ++ [Iterate Sim.no_key]))
    = None
  ∧ published
      (events
         (main_loop_body Sim.no_key
            (mem (main Sim.model_file
                    ((Sim.warm_up ++ [Deliver (MsgSignal "ChessboardMarker")])
                     ++ [Iterate Sim.no_key])))))
    = [command (PyFloat 0.5) (PyFloat 0.125)].
Proof.
  assert (He : exited (Sim.after_signal "ChessboardMarker") = None)
    by by_evaluation.
  assert (Hb : config Sim.chess_state !! "begin_img" = Some (PyBool true))
    by by_evaluation.
  assert (Hg : config Sim.chess_state !! "signal"
               = Some (PyStr "ChessboardMarker")) by by_evaluation.
  assert (Hc : config Sim.chess_state !! "crosswalk"
               = Some (PyFloat Sim.confidence)) by by_evaluation.
  assert (Ht : PrimFloat.ltb crosswalk_threshold Sim.confidence = true)
    by by_evaluation.
  assert (Hv : config Sim.chess_state !! "velocity" = Some (PyFloat 0.5))
    by by_evaluation.
  assert (Hs : config Sim.chess_state !! "steering" = Some (PyFloat 0.125))
    by by_evaluation.
  assert (Hk : key Sim.no_key ≠ ord_q) by by_evaluation.
  split_and!; try assumption;
    apply (chessboard_signal_passes_through Sim.model_file
             (Sim.warm_up ++ [Deliver (MsgSignal "ChessboardMarker")])
             Sim.no_key Sim.confidence (PyFloat 0.5) (PyFloat 0.125)
             He Hb Hg Hc Ht Hv Hs Hk).
Defined.

(** C3 fails on the script: with the signal ForwardPermitted, a last
    command of velocity 0.5 and a cruise velocity of 0.8, the iteration
    publishes the velocity 0.5 the model reported. *)
Lemma forward_signal_counterexample :
  config Sim.forward_state !! "begin_img" = Some (PyBool true)
  ∧ config Sim.forward_state !! "signal" = Some (PyStr "ForwardPermitted")
  ∧ x (linear (twist Sim.forward_state)) = PyFloat 0.5
  ∧ config Sim.forward_state !! "vel" = Some PyNone
  ∧ linear_velocity Sim.forward_state = PyFloat 0.8
  ∧ PrimFloat.eqb 0.5 0.8 = false
  ∧ key Sim.no_key ≠ ord_q
  ∧ published (events (main_loop_body Sim.no_key Sim.forward_state))
    = [command (PyFloat 0.5) (PyFloat 0.125)].
Proof. split_and!; by_evaluation. Qed.

(** The amended C3 on the same state. *)
Lemma forward_signal_passes_through_witness :
  config Sim.forward_state !! "begin_img" = Some (PyBool true)
  ∧ config Sim.forward_state !! "signal" = Some (PyStr "ForwardPermitted")
  ∧ x (linear (twist Sim.forward_state)) ≠ linear_velocity Sim.forward_state
  ∧ config Sim.forward_state !! "velocity" = Some (PyFloat 0.5)
  ∧ config Sim.forward_state !! "steering" = Some (PyFloat 0.125)
  ∧ key Sim.no_key ≠ ord_q
  ∧ published (events (main_loop_body Sim.no_key Sim.forward_state))
    = [command (PyFloat 0.5) (PyFloat 0.125)].
Proof.
  assert (Hb : config Sim.forward_state !! "begin_img" = Some (PyBool true))
    by by_evaluation.
  assert (Hg : config Sim.forward_state !! "signal"
               = Some (PyStr "ForwardPermitted")) by by_evaluation.
  assert (Hl : x (linear (twist Sim.forward_state))
               ≠ linear_velocity Sim.forward_state) by by_evaluation.
  assert (Hv : config Sim.forward_state !! "velocity" = Some (PyFloat 0.5))
    by by_evaluation.
  assert (Hs : config Sim.forward_state !! "steering" = Some (PyFloat 0.125))
    by by_evaluation.
  assert (Hk : key Sim.no_key ≠ ord_q) by by_evaluation.
  split_and!; try assumption;
    apply (forward_signal_passes_through Sim.model_file Sim.forward
             Sim.no_key (PyFloat 0.5) (PyFloat 0.125) Hb Hg Hl Hv Hs Hk).
Defined.

(** The operator quits in [Sim.stop_state] and answers both prompts;
    [Sim.afterwards] adds nothing. *)
Lemma quit_sequence_witness :
  exited (Sim.after_signal "StopPermitted") = None
  ∧ config Sim.stop_state !! "begin_img" = Some (PyBool true)
  ∧ 113%Z = ord_q
  ∧ ∃ a tail,
      output
        (main Sim.model_file
           ((Sim.warm_up ++ [Deliver (MsgSignal "StopPermitted")])
            ++ IterateIO 113 (answers Sim.quit) :: Sim.afterwards))
      = output (Sim.after_signal "StopPermitted")
        ++ [EvImshow win_name a; EvWaitKey 1;
            EvPublish (command (PyInt 0) (PyInt 0));
            EvPrint "Stopping the autonomous driving";
            EvInput "[info.yaml] Additional comments about the model: "]
        ++ tail
      ∧ ∃ saved,
          tail
          = [EvInput
               "[info.yaml] Evaluate the model on a scale from 0 (bad) to 10 (good): ";
             EvYamlDump saved]
          ∧ appended "driving_comments" "B"
              (model (info_loaded Sim.stop_state)) (model saved)
          ∧ appended "driving_model_eval" ("7" +:+ "/10")
              (model (info_loaded Sim.stop_state)) (model saved)
          ∧ (∀ entry, entry ≠ "driving_comments" →
               entry ≠ "driving_model_eval" →
               model saved !! entry
               = model (info_loaded Sim.stop_state) !! entry)
          ∧ dataset_linear_velocity saved
            = dataset_linear_velocity (info_loaded Sim.stop_state)
          ∧ exited
              (main Sim.model_file
                 ((Sim.warm_up ++ [Deliver (MsgSignal "StopPermitted")])
                  ++ IterateIO 113 (answers Sim.quit) :: Sim.afterwards))
            = Some 0%Z.
Proof.
  assert (He : exited (Sim.after_signal "StopPermitted") = None)
    by by_evaluation.
  assert (Hb : config Sim.stop_state !! "begin_img" = Some (PyBool true))
    by by_evaluation.
  assert (Hk : 113%Z = ord_q) by by_evaluation.
  split_and!; try assumption.
  apply (quit_sequence Sim.model_file
           (Sim.warm_up ++ [Deliver (MsgSignal "StopPermitted")])
           Sim.afterwards 113 (answers Sim.quit) He Hb Hk).
Defined.

(** C6 fails on the script when the standard input is at its end.  The
    process runs with a frame there and the operator presses q: the stop
    command is published once, [input] raises [EOFError] at the first prompt,
    nothing is asked for the rating, no record is written, and the process
    ends with status 1. *)
Lemma quit_sequence_counterexample :
  exited (Sim.after_signal "StopPermitted") = None
  ∧ config Sim.stop_state !! "begin_img" = Some (PyBool true)
  ∧ 113%Z = ord_q
  ∧ events (main_iteration 113 Sim.no_console Sim.stop_state)
    = [EvImshow win_name (1%nat, ["Crosswalk detection: ?%"]); EvWaitKey 1;
       EvPublish (command (PyInt 0) (PyInt 0));
       EvPrint "Stopping the autonomous driving";
       EvInput "[info.yaml] Additional comments about the model: "]
  ∧ res (main_iteration 113 Sim.no_console Sim.stop_state) = Raise EOFError
  ∧ dumped
      (output
         (main Sim.model_file
            ((Sim.warm_up ++ [Deliver (MsgSignal "StopPermitted")])
             ++ [IterateIO 113 Sim.no_console])))
    = []
  ∧ exited
      (main Sim.model_file
         ((Sim.warm_up ++ [Deliver (MsgSignal "StopPermitted")])
          ++ [IterateIO 113 Sim.no_console]))
    = Some 1%Z.
Proof.
  split_and!; by_evaluation.
Qed.

(** The operator quits in [Sim.stop_state] and answers both prompts, but
    the model file cannot be opened: both prompts are there, no record is
    written, and the process ends with status 1. *)
Example quit_on_read_only_file :
  res (main_iteration 113 Sim.read_only Sim.stop_state) = Raise OSError
  ∧ dumped (events (main_iteration 113 Sim.read_only Sim.stop_state)) = []
  ∧ published (events (main_iteration 113 Sim.read_only Sim.stop_state))
    = [command (PyInt 0) (PyInt 0)]
  ∧ exited
      (main Sim.model_file
         ((Sim.warm_up ++ [Deliver (MsgSignal "StopPermitted")])
          ++ [IterateIO 113 Sim.read_only]))
    = Some 1%Z.
Proof.
  split_and!; by_evaluation.
Qed.


(** The comment B after the comment A, and a first rating of 7. *)
Example feedback_saved :
  model (info_loaded Sim.stop_state) !! "driving_comments" = Some "A"
  ∧ model (info_loaded Sim.stop_state) !! "driving_model_eval" = None
  ∧ model (info_loaded (state (main_loop_body Sim.quit Sim.stop_state)))
      !! "driving_comments" = Some "A; B"
  ∧ model (info_loaded (state (main_loop_body Sim.quit Sim.stop_state)))
      !! "driving_model_eval" = Some "7/10".
Proof. split_and!; by_evaluation. Qed.

(** C7 fails on the script: a payload without a velocity sets the
    steering and raises [KeyError]; a payload that is no JSON raises
    [JSONDecodeError]. *)
Lemma malformed_payload_counterexample :
  malformed Sim.payload_steering_only
  ∧ res (modelSteeringVelocityCallback Sim.payload_steering_only main_config)
    = Raise (KeyError "velocity")
  ∧ main_config !! "steering" = Some (PyInt 0)
  ∧ state (modelSteeringVelocityCallback Sim.payload_steering_only main_config)
      !! "steering" = Some (PyFloat 0.125)
  ∧ malformed Sim.payload_garbage
  ∧ res (modelSteeringVelocityCallback Sim.payload_garbage main_config)
    = Raise JSONDecodeError.
Proof.
  split_and!; by_evaluation.
Qed.

(** The amended C7 on the payload that is no JSON. *)
Lemma malformed_payload_raises_witness :
  malformed Sim.payload_garbage
  ∧ fails (res (modelSteeringVelocityCallback Sim.payload_garbage main_config))
  ∧ (∀ k, k ≠ "steering" →
       state (modelSteeringVelocityCallback Sim.payload_garbage main_config)
         !! k = main_config !! k)
  ∧ (fails (payload_field Sim.payload_garbage "steering") →
       state (modelSteeringVelocityCallback Sim.payload_garbage main_config)
       = main_config).
Proof.
  assert (Hm : malformed Sim.payload_garbage) by (left; exact I).
  split; [exact Hm |].
  apply (malformed_payload_raises Sim.payload_garbage main_config Hm).
Defined.

(** C9 fails on the script: the callback of the camera topic changes two
    slots, and so does the callback of the model topic. *)
Lemma callback_two_slots_counterexample :
  state (imgRgbCallback Sim.first_frame main_config) !! "img_rgb"
  ≠ main_config !! "img_rgb"
  ∧ state (imgRgbCallback Sim.first_frame main_config) !! "begin_img"
    ≠ main_config !! "begin_img"
  ∧ state (modelSteeringVelocityCallback Sim.payload_both main_config)
      !! "steering" ≠ main_config !! "steering"
  ∧ state (modelSteeringVelocityCallback Sim.payload_both main_config)
      !! "velocity" ≠ main_config !! "velocity".
Proof. split_and!; by_evaluation. Qed.

(** A frame delivered in [Sim.stop_state] leaves the velocity slot, the
    Twist and the model record alone. *)
Lemma callback_changes_own_slots_only_witness :
  ("velocity" ∉ owned (MsgFrame Sim.first_frame))
  ∧ config (state (deliver (MsgFrame Sim.first_frame) Sim.stop_state))
      !! "velocity" = config Sim.stop_state !! "velocity"
  ∧ twist (state (deliver (MsgFrame Sim.first_frame) Sim.stop_state))
    = twist Sim.stop_state
  ∧ info_loaded (state (deliver (MsgFrame Sim.first_frame) Sim.stop_state))
    = info_loaded Sim.stop_state
  ∧ events (deliver (MsgFrame Sim.first_frame) Sim.stop_state) = [].
Proof.
  assert (Hk : "velocity" ∉ owned (MsgFrame Sim.first_frame))
    by (simpl; rewrite elem_of_union, !elem_of_singleton;
        (intuition discriminate)).
  split; [exact Hk |].
  apply (callback_changes_own_slots_only (MsgFrame Sim.first_frame)
           Sim.stop_state "velocity" Hk).
Defined.
End Runs.

(** ** More concrete schedules *)

Section MoreRuns.
#[local] Existing Instance Sim.platform.


(** No q in [Sim.forward]. *)
Lemma runs_until_quit_witness :
  Forall no_quit Sim.forward
  ∧ exited (main Sim.model_file Sim.forward) = None.
Proof.
  assert (Hq : Forall no_quit Sim.forward)
    by (repeat constructor; by_evaluation).
  split; [exact Hq |].
  apply (runs_until_quit Sim.model_file Sim.forward Hq).
Defined.

(** No model output in [Sim.model_silent]. *)
Lemma zero_commands_before_model_output_witness :
  Forall no_model Sim.model_silent
  ∧ Forall (λ t, t = command (PyInt 0) (PyInt 0))
           (published (output (main Sim.model_file Sim.model_silent))).
Proof.
  assert (Hm : Forall no_model Sim.model_silent)
    by (repeat constructor).
  split; [exact Hm |].
  apply (zero_commands_before_model_output Sim.model_file Sim.model_silent Hm).
Defined.

(** Active after the warm-up, and after [Sim.blind] on top of it. *)
Lemma active_forever_witness :
  config (mem (main Sim.model_file Sim.warm_up)) !! "begin_img"
  = Some (PyBool true)
  ∧ config (mem (main Sim.model_file (Sim.warm_up ++ Sim.blind)))
      !! "begin_img" = Some (PyBool true).
Proof.
  assert (Hb : config (mem (main Sim.model_file Sim.warm_up)) !! "begin_img"
               = Some (PyBool true)) by by_evaluation.
  split; [exact Hb |].
  apply (active_forever Sim.model_file Sim.warm_up Sim.blind Hb).
Defined.

(** The first frame after a model output. *)
Lemma frame_activates_witness :
  exited (main Sim.model_file [Deliver (MsgModel Sim.payload_both)]) = None
  ∧ imgmsg_to_cv2 Sim.first_frame = Some (1%nat, [])
  ∧ key Sim.no_key ≠ ord_q
  ∧ ∃ pct v s,
      config (mem (main Sim.model_file [Deliver (MsgModel Sim.payload_both)]))
        !! "velocity" = Some v
      ∧ config (mem (main Sim.model_file [Deliver (MsgModel Sim.payload_both)]))
          !! "steering" = Some s
      ∧ events
          (main_loop_body Sim.no_key
             (mem (main Sim.model_file
                     ([Deliver (MsgModel Sim.payload_both)]
                      ++ [Deliver (MsgFrame Sim.first_frame)]))))
        = [EvImshow win_name (putText (1%nat, []) (overlay pct)); EvWaitKey 1;
           EvPublish (command v s); EvRateSleep].
Proof.
  assert (He : exited (main Sim.model_file [Deliver (MsgModel Sim.payload_both)])
               = None) by by_evaluation.
  assert (Hd : imgmsg_to_cv2 Sim.first_frame = Some (1%nat, []))
    by by_evaluation.
  assert (Hk : key Sim.no_key ≠ ord_q) by by_evaluation.
  split_and!; try assumption.
  apply (frame_activates Sim.model_file [Deliver (MsgModel Sim.payload_both)]
           Sim.first_frame (1%nat, []) Sim.no_key He Hd Hk).
Defined.

(** The model output (0.125, 0.5) survives [Sim.other_traffic]. *)
Lemma model_output_kept_witness :
  exited (main Sim.model_file [Deliver (MsgFrame Sim.first_frame)]) = None
  ∧ payload_field Sim.payload_both "steering" = Ok 0.125%float
  ∧ payload_field Sim.payload_both "velocity" = Ok 0.5%float
  ∧ Forall no_model Sim.other_traffic
  ∧ config
      (mem (main Sim.model_file
              ([Deliver (MsgFrame Sim.first_frame)]
               ++ Deliver (MsgModel Sim.payload_both) :: Sim.other_traffic)))
      !! "steering" = Some (PyFloat 0.125)
  ∧ config
      (mem (main Sim.model_file
              ([Deliver (MsgFrame Sim.first_frame)]
               ++ Deliver (MsgModel Sim.payload_both) :: Sim.other_traffic)))
      !! "velocity" = Some (PyFloat 0.5).
Proof.
  assert (He : exited (main Sim.model_file [Deliver (MsgFrame Sim.first_frame)])
               = None) by by_evaluation.
  assert (Hs : payload_field Sim.payload_both "steering" = Ok 0.125%float)
    by by_evaluation.
  assert (Hv : payload_field Sim.payload_both "velocity" = Ok 0.5%float)
    by by_evaluation.
  assert (Hm : Forall no_model Sim.other_traffic) by (repeat constructor).
  split_and!; try assumption;
    apply (model_output_kept Sim.model_file
             [Deliver (MsgFrame Sim.first_frame)] Sim.other_traffic
             Sim.payload_both 0.125%float 0.5%float He Hs Hv Hm).
Defined.

(** A signal and a model output, in either order. *)
Lemma deliveries_commute_witness :
  owned (MsgSignal "StopPermitted") ## owned (MsgModel Sim.payload_both)
  ∧ state (callback (MsgModel Sim.payload_both)
             (state (callback (MsgSignal "StopPermitted") main_config)))
    = state (callback (MsgSignal "StopPermitted")
               (state (callback (MsgModel Sim.payload_both) main_config))).
Proof.
  assert (Hd : owned (MsgSignal "StopPermitted")
               ## owned (MsgModel Sim.payload_both))
    by (simpl; apply elem_of_disjoint; intros k;
        rewrite elem_of_union, !elem_of_singleton;
        intros -> [Hk | Hk]; discriminate Hk).
  split; [exact Hd |].
  apply (deliveries_commute (MsgSignal "StopPermitted")
           (MsgModel Sim.payload_both) main_config Hd).
Defined.

(** Two sessions on the model file with the comment A: the first operator
    types B and 7, the second one C and 9. *)
Lemma feedback_accumulates_witness :
  exited (Sim.after_signal "StopPermitted") = None
  ∧ config Sim.stop_state !! "begin_img" = Some (PyBool true)
  ∧ key Sim.quit = ord_q
  ∧ dumped
      (output
         (main Sim.model_file
            ((Sim.warm_up ++ [Deliver (MsgSignal "StopPermitted")])
             ++ [Iterate Sim.quit])))
    = [with_feedback Sim.quit Sim.model_file]
  ∧ model (with_feedback Sim.quit Sim.model_file) !! "driving_comments"
    = model (with_feedback Sim.quit Sim.model_file) !! "driving_comments"
  ∧ model (with_feedback Sim.quit Sim.model_file) !! "driving_model_eval"
    = model (with_feedback Sim.quit Sim.model_file) !! "driving_model_eval"
  ∧ exited (main (with_feedback Sim.quit Sim.model_file) Sim.warm_up) = None
  ∧ config (mem (main (with_feedback Sim.quit Sim.model_file) Sim.warm_up))
      !! "begin_img" = Some (PyBool true)
  ∧ key Sim.quit_again = ord_q
  ∧ ∃ s2,
      dumped
        (output
           (main (with_feedback Sim.quit Sim.model_file)
              (Sim.warm_up ++ [Iterate Sim.quit_again])))
      = [s2]
      ∧ model s2 !! "driving_comments"
        = Some (match model Sim.model_file !! "driving_comments" with
                | None => comments Sim.quit
                | Some old => old +:+ "; " +:+ comments Sim.quit
                end +:+ "; " +:+ comments Sim.quit_again)
      ∧ model s2 !! "driving_model_eval"
        = Some (match model Sim.model_file !! "driving_model_eval" with
                | None => rating Sim.quit +:+ "/10"
                | Some old => old +:+ "; " +:+ (rating Sim.quit +:+ "/10")
                end +:+ "; " +:+ (rating Sim.quit_again +:+ "/10")).
Proof.
  assert (He1 : exited (Sim.after_signal "StopPermitted") = None)
    by by_evaluation.
  assert (Hb1 : config Sim.stop_state !! "begin_img" = Some (PyBool true))
    by by_evaluation.
  assert (Hk1 : key Sim.quit = ord_q) by by_evaluation.
  assert (Hd1 : dumped
                  (output
                     (main Sim.model_file
                        ((Sim.warm_up ++ [Deliver (MsgSignal "StopPermitted")])
                         ++ [Iterate Sim.quit])))
                = [with_feedback Sim.quit Sim.model_file])
    by by_evaluation.
  assert (He2 : exited (main (with_feedback Sim.quit Sim.model_file)
                          Sim.warm_up) = None)
    by by_evaluation.
  assert (Hb2 : config (mem (main (with_feedback Sim.quit Sim.model_file)
                               Sim.warm_up))
                  !! "begin_img" = Some (PyBool true))
    by by_evaluation.
  assert (Hk2 : key Sim.quit_again = ord_q) by by_evaluation.
  split_and!; try assumption; try reflexivity.
  apply (feedback_accumulates Sim.model_file
           (with_feedback Sim.quit Sim.model_file)
           (with_feedback Sim.quit Sim.model_file)
           (Sim.warm_up ++ [Deliver (MsgSignal "StopPermitted")])
           Sim.warm_up Sim.quit Sim.quit_again
           He1 Hb1 Hk1 Hd1 eq_refl eq_refl He2 Hb2 Hk2).
Defined.

(** What the two sessions leave: the comments A, B and C, the ratings 7
    and 9. *)
Example feedback_of_two_sessions :
  model (with_feedback Sim.quit_again (with_feedback Sim.quit Sim.model_file))
    !! "driving_comments" = Some "A; B; C"
  ∧ model (with_feedback Sim.quit_again
             (with_feedback Sim.quit Sim.model_file))
      !! "driving_model_eval" = Some "7/10; 9/10".
Proof. split; by_evaluation. Qed.

(** Two iterations on the first frame: the overlay is on it twice. *)
Lemma overlays_pile_up_witness :
  config Sim.stop_state !! "begin_img" = Some (PyBool true)
  ∧ config Sim.stop_state !! "img_rgb" = Some (PyArray (1%nat, []))
  ∧ config Sim.stop_state !! "crosswalk" = Some (PyFloat Sim.confidence)
  ∧ percentage (PyFloat Sim.confidence)
    = Ok (PyFloat (round2 (Sim.confidence * 100)%float))
  ∧ key Sim.no_key ≠ ord_q
  ∧ displayed (events (main_loop_body Sim.no_key Sim.stop_state))
    = [putText (1%nat, [])
         (overlay (PyFloat (round2 (Sim.confidence * 100)%float)))]
  ∧ displayed
      (events
         (main_loop_body Sim.quit
            (state (main_loop_body Sim.no_key Sim.stop_state))))
    = [putText
         (putText (1%nat, [])
            (overlay (PyFloat (round2 (Sim.confidence * 100)%float))))
         (overlay (PyFloat (round2 (Sim.confidence * 100)%float)))].
Proof.
  assert (Hb : config Sim.stop_state !! "begin_img" = Some (PyBool true))
    by by_evaluation.
  assert (Ha : config Sim.stop_state !! "img_rgb" = Some (PyArray (1%nat, [])))
    by by_evaluation.
  assert (Hc : config Sim.stop_state !! "crosswalk"
               = Some (PyFloat Sim.confidence)) by by_evaluation.
  assert (Hp : percentage (PyFloat Sim.confidence)
               = Ok (PyFloat (round2 (Sim.confidence * 100)%float)))
    by reflexivity.
  assert (Hk : key Sim.no_key ≠ ord_q) by by_evaluation.
  split_and!; try assumption;
    apply (overlays_pile_up Sim.model_file
             (Sim.warm_up ++ [Deliver (MsgSignal "StopPermitted")])
             Sim.no_key Sim.quit (1%nat, []) (PyFloat Sim.confidence)
             (PyFloat (round2 (Sim.confidence * 100)%float)) Hb Ha Hc Hp Hk).
Defined.

(** Nothing is output on [Sim.blind]. *)
Lemma idle_loop_is_silent_witness :
  Forall no_frame Sim.blind ∧ output (main Sim.model_file Sim.blind) = [].
Proof.
  assert (Hblind : Forall no_frame Sim.blind)
    by (repeat constructor; reflexivity).
  split; [exact Hblind |].
  apply (idle_loop_is_silent Sim.model_file Sim.blind Hblind).
Defined.
End MoreRuns.
